(** * ton-agent: wallet provider, action providers and agent facade

    A shallow embedding of the TypeScript sources of the core package
    (wallet-providers/walletProvider.ts, action-providers/actionProvider.ts,
    action-providers/walletActionProvider.ts, agent/index.ts) together with
    the properties stated about them.

    JavaScript strings are sequences of UTF-16 code units, thrown values are
    error objects with a class, a message and an optional cause, and [async]
    methods are computations over an external world that keep a trace of the
    calls they make. *)

From Stdlib Require Import List NArith ZArith String Ascii Bool Lia.
From Stdlib Require Import DecimalString.
Import ListNotations.

Set Implicit Arguments.

(* ====================================================================== *)
(** ** JavaScript strings *)
(* ====================================================================== *)

Module Js.

(** A string is its list of UTF-16 code units. *)
Definition jsstring := list N.

Definition jsstring_eq_dec : forall a b : jsstring, {a = b} + {a <> b} :=
  list_eq_dec N.eq_dec.

Definition eqb (a b : jsstring) : bool :=
  if jsstring_eq_dec a b then true else false.

(** A literal of the source text (ASCII). *)
Definition lit (s : string) : jsstring :=
  map N_of_ascii (list_ascii_of_string s).

(** ECMAScript WhiteSpace and LineTerminator code points, the characters
    [String.prototype.trim] strips. *)
Definition isWhiteSpace (c : N) : bool :=
  (  (c =? 9) || (c =? 10) || (c =? 11) || (c =? 12) || (c =? 13)
  || (c =? 32) || (c =? 160) || (c =? 5760)
  || ((8192 <=? c) && (c <=? 8202))
  || (c =? 8232) || (c =? 8233) || (c =? 8239) || (c =? 8287)
  || (c =? 12288) || (c =? 65279))%N.

Fixpoint trimStart (s : jsstring) : jsstring :=
  match s with
  | [] => []
  | c :: r => if isWhiteSpace c then trimStart r else s
  end.

Definition trimEnd (s : jsstring) : jsstring := rev (trimStart (rev s)).

(** [s.trim()] *)
Definition trim (s : jsstring) : jsstring := trimEnd (trimStart s).

(** [!s] for a value of type [string | undefined]: absent or empty. *)
Definition falsy (o : option jsstring) : bool :=
  match o with
  | None => true
  | Some [] => true
  | Some (_ :: _) => false
  end.

(** [s.split(sep)] for a separator of one code unit; [cur] holds the piece
    being read, last unit first. *)
Fixpoint split_from (sep : N) (cur : jsstring) (s : jsstring) : list jsstring :=
  match s with
  | [] => [rev cur]
  | c :: r =>
      if (c =? sep)%N then rev cur :: split_from sep [] r
      else split_from sep (c :: cur) r
  end.

Definition split (sep : N) (s : jsstring) : list jsstring := split_from sep [] s.

(** [parts.join(sep)] *)
Fixpoint join (sep : jsstring) (parts : list jsstring) : jsstring :=
  match parts with
  | [] => []
  | [p] => p
  | p :: rest => p ++ sep ++ join sep rest
  end.

(** [String(n)] for a non-negative bigint. *)
Definition ofN (n : N) : jsstring :=
  lit (NilEmpty.string_of_uint (N.to_uint n)).

(** [hay.includes(needle)] *)
Fixpoint startsWith (needle hay : jsstring) : bool :=
  match needle, hay with
  | [], _ => true
  | _ :: _, [] => false
  | a :: n', b :: h' => (a =? b)%N && startsWith n' h'
  end.

Fixpoint includes (needle hay : jsstring) : bool :=
  startsWith needle hay ||
  match hay with
  | [] => false
  | _ :: h' => includes needle h'
  end.

End Js.

Import Js.

Declare Scope js_scope.
Delimit Scope js_scope with js.
Notation "a +++ b" := (@app N a b) (at level 60, right associativity) : js_scope.
Local Open Scope js_scope.

(* ====================================================================== *)
(** ** Thrown values and results *)
(* ====================================================================== *)

(** The error classes of the package; [ClsForeign n] is an error class of a
    collaborating library, with [n] its [name] property. *)
Inductive ErrorClass : Type :=
| ClsError
| ClsWalletProviderError
| ClsActionProviderError
| ClsWalletActionError
| ClsForeign (name : jsstring).

(** An error object: [new C(message, cause)]. *)
#[local] Set Warnings "-register-all".
Inductive Thrown : Type :=
| mkThrown (cls : ErrorClass) (message : jsstring) (cause : option Thrown).

Definition thrown_class (e : Thrown) : ErrorClass :=
  let (c, _, _) := e in c.
Definition thrown_message (e : Thrown) : jsstring :=
  let (_, m, _) := e in m.
Definition thrown_cause (e : Thrown) : option Thrown :=
  let (_, _, c) := e in c.

(** The [name] property each constructor sets. *)
Definition class_name (c : ErrorClass) : jsstring :=
  match c with
  | ClsError => lit "Error"
  | ClsWalletProviderError => lit "WalletProviderError"
  | ClsActionProviderError => lit "ActionProviderError"
  | ClsWalletActionError => lit "WalletActionError"
  | ClsForeign n => n
  end.

(** [e instanceof C]: [WalletActionError extends ActionProviderError], and
    every class extends [Error]. *)
Definition instanceOf (e : Thrown) (c : ErrorClass) : bool :=
  match c, thrown_class e with
  | ClsError, _ => true
  | ClsWalletProviderError, ClsWalletProviderError => true
  | ClsActionProviderError, ClsActionProviderError => true
  | ClsActionProviderError, ClsWalletActionError => true
  | ClsWalletActionError, ClsWalletActionError => true
  | ClsForeign n, ClsForeign m => Js.eqb n m
  | _, _ => false
  end.

(** [`${e}`], that is [Error.prototype.toString]. *)
Definition thrown_toString (e : Thrown) : jsstring :=
  match class_name (thrown_class e), thrown_message e with
  | [], m => m
  | n, [] => n
  | n, m => n +++ lit ": " +++ m
  end.

Inductive Res (A : Type) : Type :=
| Ok (a : A)
| Throw (e : Thrown).

Arguments Ok {A} a.
Arguments Throw {A} e.

Definition is_ok {A} (r : Res A) : bool :=
  match r with Ok _ => true | Throw _ => false end.

(** [bigint] values and integral [number]s. *)
Definition bigint := Z.

(** [String(n)] for a bigint. *)
Definition bigint_toString (n : bigint) : jsstring :=
  match n with
  | Z0 => lit "0"
  | Zpos p => Js.ofN (Npos p)
  | Zneg p => lit "-" +++ Js.ofN (Npos p)
  end.

(** [n || d] for an optional number: absent and zero both give [d]. *)
Definition number_or (o : option Z) (d : Z) : Z :=
  match o with
  | Some z => if (z =? 0)%Z then d else z
  | None => d
  end.

(* ====================================================================== *)
(** ** Asynchronous computations with a call trace *)
(* ====================================================================== *)

(** A computation runs on a world [W], may throw, and appends the calls it
    makes, oldest first, to a trace of events [Ev]. *)
Section Traced.
Variables W Ev : Type.

Definition St : Type := (W * list Ev)%type.
Definition world (s : St) : W := fst s.
Definition trace (s : St) : list Ev := snd s.

Definition M (A : Type) : Type := St -> Res A * St.

Definition ret {A} (a : A) : M A := fun s => (Ok a, s).

Definition throw {A} (e : Thrown) : M A := fun s => (Throw e, s).

Definition bind {A B} (m : M A) (k : A -> M B) : M B :=
  fun s =>
    match m s with
    | (Ok a, s') => k a s'
    | (Throw e, s') => (Throw e, s')
    end.

(** [try { body } catch (error) { handler }] *)
Definition try_catch {A} (body : M A) (handler : Thrown -> M A) : M A :=
  fun s =>
    match body s with
    | (Ok a, s') => (Ok a, s')
    | (Throw e, s') => handler e s'
    end.

Definition emit (e : Ev) : M unit :=
  fun s => (Ok tt, (world s, trace s ++ [e])).

(** A result computed without the world. *)
Definition liftRes {A} (r : Res A) : M A := fun s => (r, s).

(** An operation of the world, not recorded. *)
Definition perform {A} (op : W -> Res A * W) : M A :=
  fun s => let (r, w') := op (world s) in (r, (w', trace s)).

(** An operation of the world, recorded as [e] when it is called. *)
Definition call {A} (e : Ev) (op : W -> Res A * W) : M A :=
  bind (emit e) (fun _ => perform op).
End Traced.

Arguments ret {W Ev A} a.
Arguments throw {W Ev A} e.
Arguments bind {W Ev A B} m k.
Arguments try_catch {W Ev A} body handler.
Arguments emit {W Ev} e.
Arguments liftRes {W Ev A} r.
Arguments perform {W Ev A} op.
Arguments call {W Ev A} e op.
Arguments world {W Ev} s.
Arguments trace {W Ev} s.

Declare Scope traced_scope.
Delimit Scope traced_scope with traced.
Notation "x <- m ;; k" := (bind m (fun x => k))
  (at level 61, m at next level, right associativity) : traced_scope.
Notation "m ;;; k" := (bind m (fun _ => k))
  (at level 61, right associativity) : traced_scope.
Local Open Scope traced_scope.

(* ====================================================================== *)
(** ** The blockchain client library *)
(* ====================================================================== *)

(** [Network] of the access library: ["mainnet" | "testnet"]. *)
Inductive Network : Type := mainnet | testnet.

Definition Network_toString (n : Network) : jsstring :=
  match n with
  | mainnet => lit "mainnet"
  | testnet => lit "testnet"
  end.

(** [info.state.type] of an account. *)
Inductive AccountStateType : Type := active | uninit | frozen.

Definition Buffer := list N.

(** [KeyPair] of the crypto library. *)
Record KeyPair : Type := mkKeyPair {
  publicKey : Buffer;
  secretKey : Buffer
}.

(** The client and signing libraries, used as an opaque capability: their
    values are abstract, their local computations are functions that may
    throw, and their remote calls act on the [World]. *)
Class TonSdk : Type := {
  World : Type;
  Address : Type;
  Cell : Type;
  Wallet : Type;
  Contract : Type;
  TonClient : Type;
  TxResult : Type;

  (** [Address.parse(s)], throwing on a malformed string *)
  Address_parse : jsstring -> Res Address;
  (** [address.toString()] *)
  Address_toString : Address -> jsstring;
  (** [toNano(value)] *)
  toNano : jsstring -> Res bigint;
  (** [beginCell().endCell()] *)
  emptyCell : Cell;
  SendMode_PAY_GAS_SEPARATELY : Z;
  SendMode_IGNORE_ERRORS : Z;

  (** [new TonClient({ endpoint, apiKey })] *)
  TonClient_new : jsstring -> jsstring -> TonClient;
  (** [mnemonicToPrivateKey(words)] *)
  mnemonicToPrivateKey : list jsstring -> Res KeyPair;
  (** [WalletContractV4.create({ workchain, publicKey })] *)
  WalletContractV4_create : Z -> Buffer -> Wallet;
  (** [wallet.address] *)
  Wallet_address : Wallet -> Address;
  (** [tonClient.open(wallet)] *)
  TonClient_open : TonClient -> Wallet -> Contract;
  (** [result.hash().toString("hex")] *)
  TxResult_hashHex : TxResult -> Res jsstring;

  (** [contract.getBalance()] *)
  Contract_getBalance : Contract -> World -> Res bigint * World;
  (** [contract.getSeqno()] *)
  Contract_getSeqno : Contract -> World -> Res Z * World;
  (** [contract.sendTransfer({ seqno, secretKey, messages: [m], sendMode })]
      with [m = internal({ to, value, bounce, body })] *)
  Contract_sendTransfer :
    Contract -> Z -> Buffer -> Address -> bigint -> bool -> Cell -> Z ->
    World -> Res TxResult * World;
  (** [contract.deploy({ seqno, secretKey })] *)
  Contract_deploy : Contract -> Z -> Buffer -> World -> Res TxResult * World;
  (** [(await tonClient.provider(address).getState()).state.type] *)
  TonClient_getState : TonClient -> Address -> World -> Res AccountStateType * World
}.

(** What a wallet provider is seen to do: the library calls it makes and
    the diagnostics it prints. *)
Inductive SdkEvent {sdk : TonSdk} : Type :=
| EvTonClientNew (endpoint apiKey : jsstring)
| EvMnemonicToPrivateKey (words : list jsstring)
| EvWalletCreate (workchain : Z) (publicKey : Buffer)
| EvOpen
| EvGetBalance
| EvGetSeqno
| EvGetState (a : Address)
| EvSendTransfer (seqno : Z) (to : Address) (value : bigint)
| EvDeploy (seqno : Z)
| EvConsoleError (label : jsstring) (e : Thrown).

(** The events that sign or submit a transaction. *)
Definition is_submission {sdk : TonSdk} (e : SdkEvent) : bool :=
  match e with
  | EvSendTransfer _ _ _ | EvDeploy _ => true
  | _ => false
  end.

(** The events that contact the network or derive keys. *)
Definition is_library_call {sdk : TonSdk} (e : SdkEvent) : bool :=
  match e with
  | EvConsoleError _ _ => false
  | _ => true
  end.

(* ====================================================================== *)
(** ** Wallet providers (wallet-providers/walletProvider.ts) *)
(* ====================================================================== *)

(** [Config] of the agent, as [Partial<Config>]. *)
Record Config : Type := mkConfig {
  TONCENTER_API_URL : option jsstring;
  TONCENTER_API_KEY : option jsstring;
  MNEMONIC_PHRASE : option jsstring;
  WORKCHAIN : option Z;
  NETWORK : option Network
}.

(** The abstract class [WalletProvider]: what an action sees of a wallet.
    The asynchronous methods run on a world [W]. *)
Record WalletProvider (W : Type) : Type := mkWalletProvider {
  wp_getAddress : jsstring;
  wp_getNetwork : Network;
  wp_getName : jsstring;
  wp_getBalance : W -> Res bigint * W;
  wp_nativeTransfer : jsstring -> jsstring -> W -> Res jsstring * W;
  wp_isDeployed : W -> Res bool * W;
  wp_deploy : W -> Res jsstring * W;
  wp_getWorkchain : Z
}.

Definition new_WalletProviderError (message : jsstring) (cause : option Thrown) : Thrown :=
  mkThrown ClsWalletProviderError message cause.

Definition new_Error (message : jsstring) : Thrown :=
  mkThrown ClsError message None.

(** The value of a string property known to be truthy. *)
Definition str_value (o : option jsstring) : jsstring :=
  match o with
  | Some s => s
  | None => []
  end.

Section TonWallet.
Context {sdk : TonSdk}.

(** Computations of a wallet provider. *)
Definition Rpc (A : Type) : Type := M World SdkEvent A.
Definition RpcState : Type := St World SdkEvent.

Record WalletProviderConfig : Type := mkWalletProviderConfig {
  cfg_wallet : option Wallet;
  cfg_contract : option Contract;
  cfg_tonClient : TonClient;
  cfg_keyPair : KeyPair;
  cfg_network : option Network;
  cfg_workchain : option Z
}.

Record TonWalletProvider : Type := mkTonWalletProvider {
  config : WalletProviderConfig;
  wallet : Wallet;
  contract : Contract;
  tonClient : TonClient;
  keyPair : KeyPair;
  network : Network;
  workchain : Z
}.

(** [new TonWalletProvider(config)]. The client and the key pair are
    objects, which are never falsy. *)
Definition TonWalletProvider_new (cfg : WalletProviderConfig) : Res TonWalletProvider :=
  match cfg_wallet cfg, cfg_contract cfg with
  | Some w, Some c =>
      Ok {| config := cfg;
            wallet := w;
            contract := c;
            tonClient := cfg_tonClient cfg;
            keyPair := cfg_keyPair cfg;
            network := match cfg_network cfg with Some n => n | None => mainnet end;
            workchain := number_or (cfg_workchain cfg) 0 |}
  | _, _ => Throw (new_Error (lit "Missing required configuration for TonWalletProvider"))
  end.

Definition getAddress (p : TonWalletProvider) : jsstring :=
  Address_toString (Wallet_address (wallet p)).

Definition getNetwork (p : TonWalletProvider) : Network := network p.

Definition getName (_ : TonWalletProvider) : jsstring := lit "TON Wallet V4".

Definition getWorkchain (p : TonWalletProvider) : Z := workchain p.

(** [catch (error) { console.error(label, error); throw new Error(`${prefix}${error}`) }] *)
Definition rethrow_as_Error {A} (label prefix : jsstring) (error : Thrown) : Rpc A :=
  emit (EvConsoleError label error) ;;;
  throw (new_Error (prefix +++ thrown_toString error)).

Definition getBalance (p : TonWalletProvider) : Rpc bigint :=
  try_catch
    (call EvGetBalance (Contract_getBalance (contract p)))
    (rethrow_as_Error (lit "Failed to get wallet balance:")
                      (lit "Failed to get wallet balance: ")).

Definition sendMode : Z := (SendMode_PAY_GAS_SEPARATELY + SendMode_IGNORE_ERRORS)%Z.

Definition nativeTransfer (p : TonWalletProvider) (to value : jsstring) : Rpc jsstring :=
  try_catch
    (destinationAddress <- liftRes (Address_parse to) ;;
     amount <- liftRes (toNano value) ;;
     seqno <- call EvGetSeqno (Contract_getSeqno (contract p)) ;;
     result <- call (EvSendTransfer seqno destinationAddress amount)
                    (Contract_sendTransfer (contract p) seqno (secretKey (keyPair p))
                       destinationAddress amount false emptyCell sendMode) ;;
     liftRes (TxResult_hashHex result))
    (rethrow_as_Error (lit "Failed to transfer TON:") (lit "Failed to transfer TON: ")).

Definition isActive (t : AccountStateType) : bool :=
  match t with
  | active => true
  | _ => false
  end.

Definition isDeployed (p : TonWalletProvider) : Rpc bool :=
  try_catch
    (let address := getAddress p in
     toAddress <- liftRes (Address_parse address) ;;
     info <- call (EvGetState toAddress) (TonClient_getState (tonClient p) toAddress) ;;
     ret (isActive info))
    (rethrow_as_Error (lit "Failed to check if wallet is deployed:")
                      (lit "Failed to check if wallet is deployed: ")).

Definition deploy (p : TonWalletProvider) : Rpc jsstring :=
  try_catch
    (deployed <- isDeployed p ;;
     if deployed then ret (lit "Wallet is already deployed")
     else
       seqno <- call EvGetSeqno (Contract_getSeqno (contract p)) ;;
       result <- call (EvDeploy seqno)
                      (Contract_deploy (contract p) seqno (secretKey (keyPair p))) ;;
       liftRes (TxResult_hashHex result))
    (rethrow_as_Error (lit "Failed to deploy wallet:") (lit "Failed to deploy wallet: ")).

Definition sendTransaction (p : TonWalletProvider) (to value : jsstring)
    (payload : option Cell) (bounce : bool) : Rpc jsstring :=
  try_catch
    (destinationAddress <- liftRes (Address_parse to) ;;
     amount <- liftRes (toNano value) ;;
     seqno <- call EvGetSeqno (Contract_getSeqno (contract p)) ;;
     let body := match payload with Some c => c | None => emptyCell end in
     result <- call (EvSendTransfer seqno destinationAddress amount)
                    (Contract_sendTransfer (contract p) seqno (secretKey (keyPair p))
                       destinationAddress amount bounce body sendMode) ;;
     liftRes (TxResult_hashHex result))
    (rethrow_as_Error (lit "Failed to send transaction:") (lit "Failed to send transaction: ")).

(** A [TonWalletProvider] seen through the abstract class. *)
Definition asWalletProvider (p : TonWalletProvider) : WalletProvider RpcState :=
  {| wp_getAddress := getAddress p;
     wp_getNetwork := getNetwork p;
     wp_getName := getName p;
     wp_getBalance := getBalance p;
     wp_nativeTransfer := nativeTransfer p;
     wp_isDeployed := isDeployed p;
     wp_deploy := deploy p;
     wp_getWorkchain := getWorkchain p |}.

(** [config.MNEMONIC_PHRASE.split(" ").map(word => word.trim())] *)
Definition mnemonic_words (phrase : jsstring) : list jsstring :=
  map Js.trim (Js.split 32 phrase).

(** [WalletProvider.configureWithWallet(config)] *)
Definition configureWithWallet (cfg : Config) : Rpc TonWalletProvider :=
  try_catch
    (if Js.falsy (TONCENTER_API_URL cfg) || Js.falsy (TONCENTER_API_KEY cfg) then
       throw (new_WalletProviderError
                (lit "TONCENTER_API_URL and TONCENTER_API_KEY are required") None)
     else if Js.falsy (MNEMONIC_PHRASE cfg) then
       throw (new_WalletProviderError (lit "MNEMONIC_PHRASE is required") None)
     else
       let endpoint := str_value (TONCENTER_API_URL cfg) in
       let apiKey := str_value (TONCENTER_API_KEY cfg) in
       emit (EvTonClientNew endpoint apiKey) ;;;
       let client := TonClient_new endpoint apiKey in
       let mnemonic := mnemonic_words (str_value (MNEMONIC_PHRASE cfg)) in
       emit (EvMnemonicToPrivateKey mnemonic) ;;;
       keys <- liftRes (mnemonicToPrivateKey mnemonic) ;;
       let wc := number_or (WORKCHAIN cfg) 0 in
       emit (EvWalletCreate wc (publicKey keys)) ;;;
       let w := WalletContractV4_create wc (publicKey keys) in
       emit EvOpen ;;;
       let c := TonClient_open client w in
       liftRes (TonWalletProvider_new
                  {| cfg_wallet := Some w;
                     cfg_contract := Some c;
                     cfg_tonClient := client;
                     cfg_keyPair := keys;
                     cfg_network := NETWORK cfg;
                     cfg_workchain := Some wc |}))
    (fun error =>
       if instanceOf error ClsWalletProviderError then throw error
       else throw (new_WalletProviderError
                     (lit "Failed to configure wallet provider") (Some error))).

End TonWallet.

(* ====================================================================== *)
(** ** Actions and action providers (action-providers/actionProvider.ts) *)
(* ====================================================================== *)

(** What synchronous code prints. *)
Inductive ConsoleLine : Type :=
| ConsoleLog (args : list jsstring)
| ConsoleWarn (message : jsstring)
| ConsoleDebug (message : jsstring).

(** Synchronous code: it may throw and it prints. *)
Definition Sync (A : Type) : Type := M unit ConsoleLine A.

(** The schemas of ./schemas, used as opaque values. *)
Inductive Schema : Type := GetWalletDetailsSchema | NativeTransferSchema.

(** The source lines of a template literal, joined by line feeds. *)
Definition lines (l : list string) : jsstring := Js.join [10%N] (map lit l).

Definition new_ActionProviderError (message : jsstring) (cause : option Thrown) : Thrown :=
  mkThrown ClsActionProviderError message cause.

Definition new_WalletActionError (message : jsstring) (cause : option Thrown) : Thrown :=
  mkThrown ClsWalletActionError message cause.

Definition new_TypeError (message : jsstring) : Thrown :=
  mkThrown (ClsForeign (lit "TypeError")) message None.

Section Actions.
(** The world the wallet provider's asynchronous methods run on. *)
Variable W : Type.
(** [(Number(balance) / 1_000_000_000).toFixed(9)]: floating point, taken
    as given. *)
Variable toFixed9 : bigint -> jsstring.

(** The values handed to an action method. *)
Inductive JsVal : Type :=
| VWalletProvider (wp : WalletProvider W)
| VObject (props : list (jsstring * jsstring))
| VUndefined.

(** The calls an action makes on its wallet provider. *)
Inductive WalletCall : Type :=
| CallGetBalance
| CallIsDeployed
| CallNativeTransfer (to value : jsstring)
| CallDeploy.

(** Asynchronous action code. *)
Definition Act (A : Type) : Type := M W WalletCall A.

(** A promise of a string. *)
Definition Promise : Type := Act jsstring.

Record Action : Type := mkAction {
  a_name : jsstring;
  a_description : jsstring;
  a_schema : Schema;
  a_invoke : JsVal -> Res Promise
}.

(** [ActionMetadata] of ./actionDecorator. *)
Record ActionMetadata : Type := mkActionMetadata {
  am_name : jsstring;
  am_description : jsstring;
  am_schema : Schema;
  am_invoke : list JsVal -> Res Promise;
  am_walletProvider : bool
}.

(** [StoredActionMetadata], a [Map] from method names: entries in insertion
    order. *)
Definition StoredActionMetadata : Type := list (jsstring * ActionMetadata).

(** [map.values()] *)
Definition Map_values (m : StoredActionMetadata) : list ActionMetadata := map snd m.

(** [map.set(key, value)]: a present key keeps its place. *)
Fixpoint Map_set (m : StoredActionMetadata) (key : jsstring) (value : ActionMetadata)
  : StoredActionMetadata :=
  match m with
  | [] => [(key, value)]
  | (k, v) :: rest =>
      if Js.eqb k key then (k, value) :: rest
      else (k, v) :: Map_set rest key value
  end.

(** An action provider: its name, its children, what
    [Reflect.getMetadata(ACTION_DECORATOR_KEY, provider.constructor)] gives
    for it, and its [supportsNetwork]. *)
#[local] Set Warnings "-register-all".
Inductive ActionProvider : Type :=
| mkActionProvider (name : jsstring) (actionProviders : list ActionProvider)
    (registered : option StoredActionMetadata) (supportsNetwork : Network -> bool).

Definition ap_name (p : ActionProvider) : jsstring :=
  let (n, _, _, _) := p in n.
Definition ap_actionProviders (p : ActionProvider) : list ActionProvider :=
  let (_, c, _, _) := p in c.
Definition ap_registered (p : ActionProvider) : option StoredActionMetadata :=
  let (_, _, r, _) := p in r.
Definition ap_supportsNetwork (p : ActionProvider) : Network -> bool :=
  let (_, _, _, s) := p in s.

(** The constructor of [ActionProvider], reached through a subclass that
    supplies the metadata of its class and its [supportsNetwork]. *)
Definition ActionProvider_new (name : jsstring) (actionProviders : list ActionProvider)
    (registered : option StoredActionMetadata) (supportsNetwork : Network -> bool)
  : Res ActionProvider :=
  if Js.falsy (Some name) || Js.eqb (Js.trim name) [] then
    Throw (new_ActionProviderError (lit "Action provider name cannot be empty") None)
  else Ok (mkActionProvider name actionProviders registered supportsNetwork).

(** The [invoke] of the action built for [actionMetadata]. *)
Definition bound_invoke (walletProvider : WalletProvider W)
    (actionMetadata : ActionMetadata) (schemaArgs : JsVal) : Res Promise :=
  let args := if am_walletProvider actionMetadata
              then [VWalletProvider walletProvider] else [] in
  let args := args ++ [schemaArgs] in
  match am_invoke actionMetadata args with
  | Ok promise => Ok promise
  | Throw error =>
      Throw (new_ActionProviderError
               (lit "Failed to invoke action '" +++ am_name actionMetadata +++ lit "'")
               (Some error))
  end.

Definition bound_action (walletProvider : WalletProvider W)
    (actionMetadata : ActionMetadata) : Action :=
  {| a_name := am_name actionMetadata;
     a_description := am_description actionMetadata;
     a_schema := am_schema actionMetadata;
     a_invoke := bound_invoke walletProvider actionMetadata |}.

(** [for (const actionMetadata of actionsMetadataMap.values()) actions.push(...)] *)
Definition push_actions (walletProvider : WalletProvider W)
    (actions : list Action) (values : list ActionMetadata) : list Action :=
  fold_left (fun acc actionMetadata => acc ++ [bound_action walletProvider actionMetadata])
            values actions.

(** [for (const provider of allProviders) ...]. Every element is an
    [ActionProvider], so the branch of the warning is never taken. *)
Fixpoint getActions_loop (walletProvider : WalletProvider W)
    (providers : list ActionProvider) (actions : list Action) : Sync (list Action) :=
  match providers with
  | [] => ret actions
  | provider :: rest =>
      match ap_registered provider with
      | None =>
          emit (ConsoleDebug (lit "Note: " +++ ap_name provider
                                +++ lit " has no registered actions.")) ;;;
          getActions_loop walletProvider rest actions
      | Some actionsMetadataMap =>
          getActions_loop walletProvider rest
            (push_actions walletProvider actions (Map_values actionsMetadataMap))
      end
  end.

(** [ActionProvider.getActions(walletProvider)] *)
Definition ActionProvider_getActions (this : ActionProvider)
    (walletProvider : WalletProvider W) : Sync (list Action) :=
  try_catch
    (let allProviders := this :: ap_actionProviders this in
     getActions_loop walletProvider allProviders [])
    (fun error => throw (new_ActionProviderError (lit "Failed to get actions") (Some error))).

(* ---------------------------------------------------------------------- *)
(** *** The wallet action provider (action-providers/walletActionProvider.ts) *)

(** [v.key] for an argument object; reading a property of [undefined]
    throws. *)
Definition prop (v : JsVal) (key : jsstring) : Res (option jsstring) :=
  match v with
  | VObject props =>
      Ok (match find (fun kv => Js.eqb (fst kv) key) props with
          | Some kv => Some (snd kv)
          | None => None
          end)
  | VWalletProvider _ => Ok None
  | VUndefined =>
      Throw (new_TypeError (lit "Cannot read properties of undefined (reading '"
                              +++ key +++ lit "')"))
  end.

(** The receiver of a method call [walletProvider.m()]. *)
Definition receiver (v : JsVal) (method : jsstring) : Res (WalletProvider W) :=
  match v with
  | VWalletProvider wp => Ok wp
  | VObject _ => Throw (new_TypeError (lit "walletProvider." +++ method
                                         +++ lit " is not a function"))
  | VUndefined =>
      Throw (new_TypeError (lit "Cannot read properties of undefined (reading '"
                              +++ method +++ lit "')"))
  end.

Definition getWalletDetails (walletProvider : JsVal) (_ : JsVal) : Promise :=
  try_catch
    (wp <- liftRes (receiver walletProvider (lit "getAddress")) ;;
     let address := wp_getAddress wp in
     balance <- call CallGetBalance (wp_getBalance wp) ;;
     let name := wp_getName wp in
     let network := wp_getNetwork wp in
     deployed <- call CallIsDeployed (wp_isDeployed wp) ;;
     let formattedBalance := toFixed9 balance in
     ret (Js.join [10%N]
            [ lit "## Wallet Details";
              lit "- **Provider**: " +++ name;
              lit "- **Address**: `" +++ address +++ lit "`";
              lit "- **Network**: " +++ Network_toString network;
              lit "- **TON Balance**: " +++ formattedBalance +++ lit " TON";
              lit "- **Deployed**: " +++ (if deployed then lit "Yes" else lit "No") ]))
    (fun error => throw (new_WalletActionError (lit "Failed to get wallet details")
                                               (Some error))).

Definition transferTon (walletProvider : JsVal) (args : JsVal) : Promise :=
  try_catch
    (to <- liftRes (prop args (lit "to")) ;;
     value <- liftRes (prop args (lit "value")) ;;
     if Js.falsy to || Js.falsy value then
       throw (new_WalletActionError
                (lit "Destination address and transfer amount are required") None)
     else
       wp <- liftRes (receiver walletProvider (lit "isDeployed")) ;;
       deployed <- call CallIsDeployed (wp_isDeployed wp) ;;
       if negb deployed then
         throw (new_WalletActionError
                  (lit "Wallet is not deployed. Please deploy the wallet first.") None)
       else
         currentBalance <- call CallGetBalance (wp_getBalance wp) ;;
         let transferAmount := str_value value in
         txHash <- call (CallNativeTransfer (str_value to) transferAmount)
                        (wp_nativeTransfer wp (str_value to) transferAmount) ;;
         ret (Js.join [10%N]
                [ lit "## Transfer Successful";
                  lit "- **Transaction Hash**: `" +++ txHash +++ lit "`";
                  lit "- **Current Balance**: `" +++ bigint_toString currentBalance
                    +++ lit "`";
                  lit "- **Amount**: " +++ transferAmount +++ lit " TON";
                  lit "- **Recipient**: `" +++ str_value to +++ lit "`" ]))
    (fun error => throw (new_WalletActionError (lit "Failed to transfer TON") (Some error))).

Definition ensureWalletDeployed (walletProvider : JsVal) (_ : JsVal) : Promise :=
  try_catch
    (wp <- liftRes (receiver walletProvider (lit "isDeployed")) ;;
     deployed <- call CallIsDeployed (wp_isDeployed wp) ;;
     if deployed then ret (lit "Wallet is already deployed and ready to use.")
     else
       txHash <- call CallDeploy (wp_deploy wp) ;;
       ret (Js.join [10%N]
              [ lit "## Wallet Deployment Initiated";
                lit "- **Transaction Hash**: `" +++ txHash +++ lit "`";
                lit "- The wallet deployment has been initiated. Please wait for confirmation." ]))
    (fun error => throw (new_WalletActionError (lit "Failed to deploy wallet") (Some error))).

(** [method.apply(provider, args)] for an [async] method of two parameters:
    it returns its promise without throwing, and a missing argument is
    [undefined]. The methods above do not use their receiver. *)
Definition apply_method (method : JsVal -> JsVal -> Promise) (args : list JsVal)
  : Res Promise :=
  Ok (method (nth 0 args VUndefined) (nth 1 args VUndefined)).

(** Modelled from the spec: the decorator [CreateAction] of
    ./actionDecorator, which is not among the sources. Its [register]
    "attaches metadata keyed by method name into a per-type mapping", where
    "re-registering the same method name overwrites prior metadata"; the
    metadata holds the declared name, description and schema, whether the
    method needs the wallet provider, and the method. [existing] is the
    mapping of the class so far, absent before the first registration. *)
Definition CreateAction (name description : jsstring) (schema : Schema)
    (propertyKey : jsstring) (method : JsVal -> JsVal -> Promise)
    (requiresWalletProvider : bool) (existing : option StoredActionMetadata)
  : option StoredActionMetadata :=
  let existingMetadata := match existing with Some m => m | None => [] end in
  Some (Map_set existingMetadata propertyKey
          {| am_name := name;
             am_description := description;
             am_schema := schema;
             am_invoke := apply_method method;
             am_walletProvider := requiresWalletProvider |}).

(** The metadata of the class [WalletActionProvider]: its decorators, in
    the order of the decorated methods in the class body. Each method takes
    the wallet provider first. *)
Definition WalletActionProvider_registered : option StoredActionMetadata :=
  let m0 := None in
  let m1 :=
    CreateAction (lit "get_wallet_details")
      (lines [ EmptyString;
               "        This tool will return the details of the connected wallet including:";
               "        - Wallet address";
               "        - Network information";
               "        - Native TON balance";
               "        - Wallet provider name and type";
               "        - Deployment status";
               "        " ]%string)
      GetWalletDetailsSchema (lit "getWalletDetails") getWalletDetails true m0 in
  let m2 :=
    CreateAction (lit "transfer_ton")
      (lines [ EmptyString;
               "        Transfer TON tokens to another address.";
               "        - Requires a connected wallet with sufficient balance";
               "        - Amount is specified in TON units (not nano)";
               "        - Returns transaction hash when successful";
               "        " ]%string)
      NativeTransferSchema (lit "transferTon") transferTon true m1 in
  CreateAction (lit "ensure_wallet_deployed")
    (lines [ EmptyString;
             "        Checks if the wallet is deployed and deploys it if not.";
             "        - Returns the current deployment status";
             "        - If deployment is needed, initiates the deployment and returns the transaction hash";
             "        " ]%string)
    GetWalletDetailsSchema (lit "ensureWalletDeployed") ensureWalletDeployed true m2.

(** [WalletActionProvider.supportsNetwork] *)
Definition WalletActionProvider_supportsNetwork (_ : Network) : bool := true.

(** [new WalletActionProvider(childProviders)] *)
Definition WalletActionProvider_new (childProviders : list ActionProvider)
  : Res ActionProvider :=
  ActionProvider_new (lit "wallet") childProviders
    WalletActionProvider_registered WalletActionProvider_supportsNetwork.

Definition createWalletActionProvider (childProviders : list ActionProvider)
  : Res ActionProvider :=
  WalletActionProvider_new childProviders.

(** The object [createWalletActionProvider()] returns, the module's
    [walletActionProvider]. *)
Definition walletActionProvider : ActionProvider :=
  mkActionProvider (lit "wallet") [] WalletActionProvider_registered
    WalletActionProvider_supportsNetwork.

(* ---------------------------------------------------------------------- *)
(** *** The agent (agent/index.ts) *)

Record TonAgent : Type := mkTonAgent {
  walletProvider : WalletProvider W;
  actionProviders : list ActionProvider
}.

(** [new TonAgent(config)] *)
Definition TonAgent_new (wp : WalletProvider W)
    (providers : option (list ActionProvider)) : TonAgent :=
  {| walletProvider := wp;
     actionProviders := match providers with
                        | Some l => l
                        | None => [walletActionProvider]
                        end |}.

(** The loop of [getActions], with its two arrays. *)
Fixpoint collect_actions (wp : WalletProvider W) (providers : list ActionProvider)
    (actions : list Action) (unsupported : list jsstring)
  : Sync (list Action * list jsstring) :=
  match providers with
  | [] => ret (actions, unsupported)
  | actionProvider :: rest =>
      if ap_supportsNetwork actionProvider (wp_getNetwork wp) then
        provided <- ActionProvider_getActions actionProvider wp ;;
        collect_actions wp rest (actions ++ provided) unsupported
      else
        collect_actions wp rest actions (unsupported ++ [ap_name actionProvider])
  end.

(** The diagnostic printed for the providers that were passed over. *)
Definition report_unsupported (wp : WalletProvider W) (unsupported : list jsstring)
  : Sync unit :=
  if (0 <? List.length unsupported)%nat then
    emit (ConsoleLog
            [ lit "Warning: The following action providers are not supported on the current network and will be unavailable: "
                +++ Js.join (lit ", ") unsupported ]) ;;;
    emit (ConsoleLog [ lit "Current network:"; Network_toString (wp_getNetwork wp) ])
  else ret tt.

(** [TonAgent.getActions()] *)
Definition TonAgent_getActions (this : TonAgent) : Sync (list Action) :=
  found <- collect_actions (walletProvider this) (actionProviders this) [] [] ;;
  report_unsupported (walletProvider this) (snd found) ;;;
  ret (fst found).

End Actions.

(* ====================================================================== *)
(** ** The agent's factory (agent/index.ts) *)
(* ====================================================================== *)

Section AgentFactory.
Context {sdk : TonSdk}.
Variable toFixed9 : bigint -> jsstring.

(** [TonAgentOptions]: the configuration fields with an optional wallet
    provider and optional action providers. *)
Record TonAgentOptions : Type := mkTonAgentOptions {
  opt_config : Config;
  opt_walletProvider : option (WalletProvider RpcState);
  opt_actionProviders : option (list (ActionProvider RpcState))
}.

(** The default argument of [from]: [{ actionProviders: [walletActionProvider] }]. *)
Definition from_default : TonAgentOptions :=
  {| opt_config := mkConfig None None None None None;
     opt_walletProvider := None;
     opt_actionProviders := Some [walletActionProvider RpcState toFixed9] |}.

(** [TonAgent.from(config)] *)
Definition TonAgent_from (options : option TonAgentOptions) : Rpc (TonAgent RpcState) :=
  let config := match options with Some o => o | None => from_default end in
  wp <- match opt_walletProvider config with
        | Some given => ret given
        | None =>
            if Js.falsy (TONCENTER_API_URL (opt_config config))
               || Js.falsy (TONCENTER_API_KEY (opt_config config)) then
              throw (new_Error (lit "TONCENTER_API_URL and TONCENTER_API_KEY are required if not providing a walletProvider"))
            else
              configured <- configureWithWallet (opt_config config) ;;
              ret (asWalletProvider configured)
        end ;;
  ret (TonAgent_new toFixed9 wp (opt_actionProviders config)).

End AgentFactory.

(* ====================================================================== *)
(** ** Tools for the tool-calling runtime (langchain/src/index.ts) *)
(* ====================================================================== *)

Section LangChain.
Variable W : Type.

(** What [tool(handler, { name, description, schema })] is given. *)
Record Tool : Type := mkTool {
  tool_handler : JsVal W -> Promise W;
  tool_name : jsstring;
  tool_description : jsstring;
  tool_schema : Schema
}.

(** [async (arg) => { const result = await action.invoke(arg); return result; }]:
    a throw of [invoke] rejects the handler's promise. *)
Definition tool_of (action : Action W) : Tool :=
  {| tool_handler := fun arg =>
       match a_invoke action arg with
       | Ok promise => promise
       | Throw error => throw error
       end;
     tool_name := a_name action;
     tool_description := a_description action;
     tool_schema := a_schema action |}.

(** [getLangChainTools(agent)] *)
Definition getLangChainTools (agent : TonAgent W) : Sync (list Tool) :=
  actions <- TonAgent_getActions agent ;;
  ret (map tool_of actions).

End LangChain.

(* ====================================================================== *)
(** ** The example program (examples/simple/index.ts) *)
(* ====================================================================== *)

(** A [number] that is integral, or [NaN]. *)
Inductive JsNumber : Type :=
| Num (z : Z)
| NaN.

Definition Number_mul (a b : JsNumber) : JsNumber :=
  match a, b with
  | Num x, Num y => Num (x * y)
  | _, _ => NaN
  end.

(** [Math.min(a, b)] *)
Definition Math_min (a b : JsNumber) : JsNumber :=
  match a, b with
  | Num x, Num y => Num (Z.min x y)
  | _, _ => NaN
  end.

Definition Number_toString (n : JsNumber) : jsstring :=
  match n with
  | Num z => bigint_toString z
  | NaN => lit "NaN"
  end.

(** The variables of [process.env] the program reads. *)
Record ProcessEnv : Type := mkProcessEnv {
  env_NETWORK : option jsstring;
  env_TONCENTER_API_URL : option jsstring;
  env_TONCENTER_API_KEY : option jsstring;
  env_MNEMONIC_PHRASE : option jsstring;
  env_MODEL_NAME : option jsstring;
  env_INTERVAL_SECONDS : option jsstring
}.

Record EnvConfig : Type := mkEnvConfig {
  ec_NETWORK : jsstring;
  ec_TONCENTER_API_URL : option jsstring;
  ec_TONCENTER_API_KEY : option jsstring;
  ec_MNEMONIC_PHRASE : option jsstring;
  ec_MODEL_NAME : option jsstring;
  ec_INTERVAL_SECONDS : option JsNumber
}.

(** [s || d] for an optional string. *)
Definition string_or (o : option jsstring) (d : jsstring) : jsstring :=
  if Js.falsy o then d else str_value o.

Section Example.
(** [parseInt(text, 10)], taken as given. *)
Variable parseInt10 : jsstring -> JsNumber.

(** [loadConfig()] *)
Definition loadConfig (env : ProcessEnv) : Res EnvConfig :=
  let network := string_or (env_NETWORK env) (lit "testnet") in
  if negb (Js.eqb network (lit "testnet")) && negb (Js.eqb network (lit "mainnet")) then
    Throw (new_Error (lit "Invalid network: " +++ network
                        +++ lit ". Must be 'testnet' or 'mainnet'"))
  else
    Ok {| ec_NETWORK := network;
          ec_TONCENTER_API_URL := env_TONCENTER_API_URL env;
          ec_TONCENTER_API_KEY := env_TONCENTER_API_KEY env;
          ec_MNEMONIC_PHRASE := env_MNEMONIC_PHRASE env;
          ec_MODEL_NAME := Some (string_or (env_MODEL_NAME env) (lit "gpt-4o-mini"));
          ec_INTERVAL_SECONDS :=
            Some (if Js.falsy (env_INTERVAL_SECONDS env) then Num 10
                  else parseInt10 (str_value (env_INTERVAL_SECONDS env))) |}.

End Example.

(** A chunk of the agent's stream: [chunk.agent?.messages?.[0]?.content]
    and [chunk.tools?.messages?.[0]?.content], each absent when its key or
    its path is. *)
Record Chunk : Type := mkChunk {
  chunk_agent : option jsstring;
  chunk_tools : option jsstring
}.

(** What the loops of the program do, seen from outside. *)
Inductive LoopEvent : Type :=
| Printed (line : jsstring)
| PrintedError (label detail : jsstring)
| Slept (milliseconds : JsNumber).

(** The body of [for await (const chunk of stream)]. *)
Definition print_chunk (chunk : Chunk) : list LoopEvent :=
  (if negb (Js.falsy (chunk_agent chunk)) then [Printed (str_value (chunk_agent chunk))]
   else if negb (Js.falsy (chunk_tools chunk)) then [Printed (str_value (chunk_tools chunk))]
   else [])
  ++ [Printed (lit "-------------------")].

(** One call of [agent.stream] and the reading of its chunks: the chunks
    that arrived, and the error that ended them, if any. *)
Record Round : Type := mkRound {
  round_chunks : list Chunk;
  round_error : option Thrown
}.

Definition MAX_CONSECUTIVE_ERRORS : Z := 3.

(** Where [runAutonomousMode] stands after some rounds. *)
Inductive LoopStatus : Type :=
| Looping (consecutiveErrors : Z)
| Thrown_out (error : Thrown).

(** One turn of the [while (true)] of [runAutonomousMode]. *)
Definition autonomous_round (interval : JsNumber) (consecutiveErrors : Z) (r : Round)
  : list LoopEvent * LoopStatus :=
  let printed := flat_map print_chunk (round_chunks r) in
  match round_error r with
  | None =>
      (printed ++ [Slept (Number_mul interval (Num 1000))], Looping 0)
  | Some error =>
      let consecutiveErrors := (consecutiveErrors + 1)%Z in
      let report :=
        PrintedError (lit "Error in autonomous mode (" +++ bigint_toString consecutiveErrors
                        +++ lit "/" +++ bigint_toString MAX_CONSECUTIVE_ERRORS +++ lit "):")
                     (thrown_message error) in
      if (MAX_CONSECUTIVE_ERRORS <=? consecutiveErrors)%Z then
        (printed ++ [report;
                     PrintedError (lit "Too many consecutive errors. Exiting autonomous mode.") []],
         Thrown_out error)
      else
        let backoffTime := Math_min (Num 30) (Number_mul interval (Num consecutiveErrors)) in
        (printed ++ [report;
                     Printed (lit "Backing off for " +++ Number_toString backoffTime
                                +++ lit " seconds before retrying...");
                     Slept (Number_mul backoffTime (Num 1000))],
         Looping consecutiveErrors)
  end.

(** The turns of the loop on the rounds that happen, until it throws. *)
Fixpoint autonomous_rounds (interval : JsNumber) (consecutiveErrors : Z) (rounds : list Round)
  : list LoopEvent * LoopStatus :=
  match rounds with
  | [] => ([], Looping consecutiveErrors)
  | r :: rest =>
      match autonomous_round interval consecutiveErrors r with
      | (events, Looping c) =>
          let (later, status) := autonomous_rounds interval c rest in
          (events ++ later, status)
      | (events, Thrown_out error) => (events, Thrown_out error)
      end
  end.

(** [runAutonomousMode(agent, config, interval)] on the rounds that happen. *)
Definition runAutonomousMode (interval : option JsNumber) (rounds : list Round)
  : list LoopEvent * LoopStatus :=
  let interval := match interval with Some i => i | None => Num 10 end in
  let (events, status) := autonomous_rounds interval 0 rounds in
  (Printed (lit "Starting autonomous mode with " +++ Number_toString interval
              +++ lit " second intervals...")
     :: Printed (lit "Press Ctrl+C to exit") :: events,
   status).

(* ====================================================================== *)
(** * Vocabulary of the properties *)
(* ====================================================================== *)

(** A string that is empty or holds white space only. *)
Definition blank (s : jsstring) : bool := forallb Js.isWhiteSpace s.

(** The required fields of the configuration. *)
Inductive ConfigField : Type := FieldUrl | FieldKey | FieldMnemonic.

Definition field_name (f : ConfigField) : jsstring :=
  match f with
  | FieldUrl => lit "TONCENTER_API_URL"
  | FieldKey => lit "TONCENTER_API_KEY"
  | FieldMnemonic => lit "MNEMONIC_PHRASE"
  end.

(** A field is missing when it is absent or empty. *)
Definition field_missing (cfg : Config) (f : ConfigField) : bool :=
  Js.falsy match f with
           | FieldUrl => TONCENTER_API_URL cfg
           | FieldKey => TONCENTER_API_KEY cfg
           | FieldMnemonic => MNEMONIC_PHRASE cfg
           end.

(** The events of a run of the factory that reaches the constructor. *)
Definition configure_events {sdk : TonSdk} (cfg : Config) (keys : KeyPair)
  : list SdkEvent :=
  let words := mnemonic_words (str_value (MNEMONIC_PHRASE cfg)) in
  [ EvTonClientNew (str_value (TONCENTER_API_URL cfg)) (str_value (TONCENTER_API_KEY cfg));
    EvMnemonicToPrivateKey words;
    EvWalletCreate (number_or (WORKCHAIN cfg) 0) (publicKey keys);
    EvOpen ].

(** The sentinel [deploy] returns for a wallet that is deployed. *)
Definition already_deployed : jsstring := lit "Wallet is already deployed".

Section ProviderVocabulary.
Variable W : Type.

(** The metadata entries of a provider's class, none when the lookup gives
    nothing. *)
Definition values_of (q : ActionProvider W) : list (ActionMetadata W) :=
  match ap_registered q with
  | Some m => Map_values m
  | None => []
  end.

(** The actions one provider of the list contributes. *)
Definition contribution (wp : WalletProvider W) (q : ActionProvider W)
  : list (Action W) :=
  map (bound_action wp) (values_of q).

(** The note printed for a provider without metadata. *)
Definition note_of (q : ActionProvider W) : list ConsoleLine :=
  match ap_registered q with
  | Some _ => []
  | None => [ConsoleDebug (lit "Note: " +++ ap_name q
                             +++ lit " has no registered actions.")]
  end.

(** What [getActions] of [p] returns and prints: the contributions of [p]
    and of its direct children, in that order. *)
Definition provided (wp : WalletProvider W) (p : ActionProvider W) : list (Action W) :=
  flat_map (contribution wp) (p :: ap_actionProviders p).

Definition notes (p : ActionProvider W) : list ConsoleLine :=
  flat_map note_of (p :: ap_actionProviders p).

(** The lines the agent prints for the names it passed over. *)
Definition report_lines (wp : WalletProvider W) (unsupported : list jsstring)
  : list ConsoleLine :=
  match unsupported with
  | [] => []
  | _ :: _ =>
      [ ConsoleLog
          [ lit "Warning: The following action providers are not supported on the current network and will be unavailable: "
              +++ Js.join (lit ", ") unsupported ];
        ConsoleLog [ lit "Current network:"; Network_toString (wp_getNetwork wp) ] ]
  end.

End ProviderVocabulary.

Arguments note_of {W} q.
Arguments notes {W} p.

(** The error every failure of [transferTon] surfaces as. *)
Definition transfer_failure (cause : Thrown) : Thrown :=
  new_WalletActionError (lit "Failed to transfer TON") (Some cause).

Definition arguments_required : Thrown :=
  new_WalletActionError (lit "Destination address and transfer amount are required") None.

Definition not_deployed : Thrown :=
  new_WalletActionError (lit "Wallet is not deployed. Please deploy the wallet first.") None.

(* ====================================================================== *)
(** ** A small ledger standing in for the client library *)
(* ====================================================================== *)

(** An in-memory instance of [TonSdk], on which the definitions above run
    to a value. An address is its text, well formed when it starts with
    "EQ"; amounts are written in decimal digits. *)
Module Ledger.

Record LedgerWorld : Type := mkLedgerWorld {
  lw_state : AccountStateType;
  lw_seqno : Z;
  lw_balance : Z;
  lw_online : bool
}.

Definition offline : Thrown := mkThrown (ClsForeign (lit "AxiosError")) (lit "Network Error") None.

Definition parse (s : jsstring) : Res jsstring :=
  if Js.startsWith (lit "EQ") s then Ok s
  else Throw (new_Error (lit "Unknown address type: " +++ s)).

Definition digit (c : N) : option Z :=
  if ((48 <=? c) && (c <=? 57))%N then Some (Z.of_N (c - 48)) else None.

Fixpoint digits (acc : Z) (s : jsstring) : option Z :=
  match s with
  | [] => Some acc
  | c :: r => match digit c with
              | Some d => digits (10 * acc + d) r
              | None => None
              end
  end.

Definition nano (s : jsstring) : Res bigint :=
  match s with
  | [] => Throw (new_Error (lit "Invalid number"))
  | _ => match digits 0 s with
         | Some n => Ok (n * 1000000000)%Z
         | None => Throw (new_Error (lit "Invalid number"))
         end
  end.

Definition derive (words : list jsstring) : Res KeyPair :=
  Ok {| publicKey := List.concat words; secretKey := rev (List.concat words) |}.

Definition remote {A} (w : LedgerWorld) (answer : Res A) (w' : LedgerWorld)
  : Res A * LedgerWorld :=
  if lw_online w then (answer, w') else (Throw offline, w).

#[export] Instance sdk : TonSdk := {|
  World := LedgerWorld;
  Address := jsstring;
  Cell := unit;
  Wallet := Z * Buffer;
  Contract := Z * Buffer;
  TonClient := jsstring * jsstring;
  TxResult := Z;
  Address_parse := parse;
  Address_toString := fun a => a;
  toNano := nano;
  emptyCell := tt;
  SendMode_PAY_GAS_SEPARATELY := 1;
  SendMode_IGNORE_ERRORS := 2;
  TonClient_new := fun endpoint apiKey => (endpoint, apiKey);
  mnemonicToPrivateKey := derive;
  WalletContractV4_create := fun wc pk => (wc, pk);
  Wallet_address := fun w => lit "EQ" +++ bigint_toString (fst w) +++ lit ":" +++ snd w;
  TonClient_open := fun _ w => w;
  TxResult_hashHex := fun r => Ok (lit "tx" +++ bigint_toString r);
  Contract_getBalance := fun _ w => remote w (Ok (lw_balance w)) w;
  Contract_getSeqno := fun _ w => remote w (Ok (lw_seqno w)) w;
  Contract_sendTransfer := fun _ seqno _ _ value _ _ _ w =>
    remote w (Ok seqno)
      {| lw_state := lw_state w; lw_seqno := lw_seqno w + 1;
         lw_balance := lw_balance w - value; lw_online := true |};
  Contract_deploy := fun _ seqno _ w =>
    remote w (Ok seqno)
      {| lw_state := active; lw_seqno := lw_seqno w + 1;
         lw_balance := lw_balance w; lw_online := true |};
  TonClient_getState := fun _ _ w => remote w (Ok (lw_state w)) w
|}.

Definition sampleConfig : Config :=
  {| TONCENTER_API_URL := Some (lit "https://testnet.toncenter.com/api/v2/jsonRPC");
     TONCENTER_API_KEY := Some (lit "key");
     MNEMONIC_PHRASE := Some (lit "abandon ability able");
     WORKCHAIN := None;
     NETWORK := Some testnet |}.

Definition deployedWorld : LedgerWorld :=
  {| lw_state := active; lw_seqno := 7; lw_balance := 5000000000; lw_online := true |}.

Definition freshWorld : LedgerWorld :=
  {| lw_state := uninit; lw_seqno := 0; lw_balance := 5000000000; lw_online := true |}.

Definition start (w : LedgerWorld) : RpcState := (w, []).

(** The provider [configureWithWallet(sampleConfig)] builds. *)
Definition sampleProvider : TonWalletProvider :=
  let keys := {| publicKey := lit "abandonabilityable";
                 secretKey := rev (lit "abandonabilityable") |} in
  let client := (lit "https://testnet.toncenter.com/api/v2/jsonRPC", lit "key") in
  {| config := {| cfg_wallet := Some (0%Z, publicKey keys);
                  cfg_contract := Some (0%Z, publicKey keys);
                  cfg_tonClient := client;
                  cfg_keyPair := keys;
                  cfg_network := Some testnet;
                  cfg_workchain := Some 0%Z |};
     wallet := (0%Z, publicKey keys);
     contract := (0%Z, publicKey keys);
     tonClient := client;
     keyPair := keys;
     network := testnet;
     workchain := 0 |}.

Definition sampleAddress : @Address sdk := getAddress sampleProvider.

(** The address written [text]. *)
Definition address (text : string) : @Address sdk := lit text.

(** A configuration that leaves out the network tag and the workchain. *)
Definition bareConfig : WalletProviderConfig :=
  {| cfg_wallet := Some (0%Z, lit "pk");
     cfg_contract := Some (0%Z, lit "pk");
     cfg_tonClient := (lit "endpoint", lit "key");
     cfg_keyPair := {| publicKey := lit "pk"; secretKey := lit "sk" |};
     cfg_network := None;
     cfg_workchain := None |}.

(** What [new TonWalletProvider(bareConfig)] builds. *)
Definition bareProvider : TonWalletProvider :=
  {| config := bareConfig;
     wallet := (0%Z, lit "pk");
     contract := (0%Z, lit "pk");
     tonClient := (lit "endpoint", lit "key");
     keyPair := {| publicKey := lit "pk"; secretKey := lit "sk" |};
     network := mainnet;
     workchain := 0 |}.

(** The balance with nine decimals, exact on the integers. *)
Definition pad9 (t : jsstring) : jsstring :=
  repeat 48%N (9 - List.length t) +++ t.

Definition toFixed9 (balance : bigint) : jsstring :=
  bigint_toString (balance / 1000000000)%Z +++ lit "."
    +++ pad9 (bigint_toString (balance mod 1000000000)%Z).

(** The sample provider as an action sees it. *)
Definition sampleWallet : WalletProvider RpcState := asWalletProvider sampleProvider.

(** A provider whose class declares no action. *)
Definition plainProvider : ActionProvider RpcState :=
  mkActionProvider (lit "plain") [] None (fun _ => true).

(** A provider that supports the main network only. *)
Definition mainnetProvider : ActionProvider RpcState :=
  mkActionProvider (lit "mainnet-only") [] (WalletActionProvider_registered RpcState toFixed9)
    (fun n => match n with mainnet => true | testnet => false end).

(** The wallet action provider with [plainProvider] as its child. *)
Definition walletWithChild : ActionProvider RpcState :=
  mkActionProvider (lit "wallet") [plainProvider]
    (WalletActionProvider_registered RpcState toFixed9) WalletActionProvider_supportsNetwork.

Definition sampleAgent : TonAgent RpcState :=
  TonAgent_new toFixed9 sampleWallet
    (Some [walletActionProvider RpcState toFixed9; mainnetProvider]).

Definition console : St unit ConsoleLine := (tt, []).

(** The argument object [{ to, value }]. *)
Definition transferArgs (to value : string) : JsVal RpcState :=
  VObject RpcState [(lit "to", lit to); (lit "value", lit value)].

Definition acting (w : LedgerWorld) : St RpcState (WalletCall) := (start w, []).

End Ledger.

(* ====================================================================== *)
(** ** A replayed library, for runs in which the chain changes *)
(* ====================================================================== *)

(** A second instance of [TonSdk]: the world is the list of the answers
    the coming state queries get, and a mnemonic with an empty word is
    refused. *)
Module Replay.

Definition derive (words : list jsstring) : Res KeyPair :=
  if existsb (fun w => Js.eqb w []) words then
    Throw (mkThrown (ClsForeign (lit "RangeError")) (lit "Invalid mnemonic") None)
  else Ok {| publicKey := List.concat words; secretKey := List.concat words |}.

Definition answer (w : list AccountStateType) : Res AccountStateType * list AccountStateType :=
  match w with
  | [] => (Ok uninit, [])
  | t :: rest => (Ok t, rest)
  end.

#[export] Instance sdk : TonSdk := {|
  World := list AccountStateType;
  Address := jsstring;
  Cell := unit;
  Wallet := Buffer;
  Contract := Buffer;
  TonClient := unit;
  TxResult := Z;
  Address_parse := fun s => Ok s;
  Address_toString := fun a => a;
  toNano := fun _ => Ok 1000000000%Z;
  emptyCell := tt;
  SendMode_PAY_GAS_SEPARATELY := 1;
  SendMode_IGNORE_ERRORS := 2;
  TonClient_new := fun _ _ => tt;
  mnemonicToPrivateKey := derive;
  WalletContractV4_create := fun _ pk => pk;
  Wallet_address := fun w => w;
  TonClient_open := fun _ w => w;
  TxResult_hashHex := fun r => Ok (lit "tx" +++ bigint_toString r);
  Contract_getBalance := fun _ w => (Ok 0%Z, w);
  Contract_getSeqno := fun _ w => (Ok 0%Z, w);
  Contract_sendTransfer := fun _ seqno _ _ _ _ _ _ w => (Ok seqno, w);
  Contract_deploy := fun _ seqno _ w => (Ok seqno, w);
  TonClient_getState := fun _ _ w => answer w
|}.

Definition provider : TonWalletProvider :=
  {| config := {| cfg_wallet := Some (lit "EQwallet");
                  cfg_contract := Some (lit "EQwallet");
                  cfg_tonClient := tt;
                  cfg_keyPair := {| publicKey := lit "pk"; secretKey := lit "sk" |};
                  cfg_network := Some testnet;
                  cfg_workchain := Some 0%Z |};
     wallet := lit "EQwallet";
     contract := lit "EQwallet";
     tonClient := tt;
     keyPair := {| publicKey := lit "pk"; secretKey := lit "sk" |};
     network := testnet;
     workchain := 0 |}.

Definition walletAddress : @Address sdk := lit "EQwallet".

(** A phrase with two spaces in a row, so with an empty word. *)
Definition doubledSpaceConfig : Config :=
  {| TONCENTER_API_URL := Some (lit "https://testnet.toncenter.com/api/v2/jsonRPC");
     TONCENTER_API_KEY := Some (lit "key");
     MNEMONIC_PHRASE := Some (lit "abandon  ability");
     WORKCHAIN := None;
     NETWORK := None |}.

Definition start (w : list AccountStateType) : RpcState := (w, []).

Definition acting (w : list AccountStateType) : St RpcState WalletCall :=
  (start w, []).

End Replay.

(* ====================================================================== *)
(** ** Sample providers *)
(* ====================================================================== *)

Definition is_console_log (line : ConsoleLine) : bool :=
  match line with
  | ConsoleLog _ => true
  | _ => false
  end.

(** A child as [getActions] of its parent sees it: its name and the
    metadata of its class, without its own children and with a
    [supportsNetwork] that refuses every network. *)
Definition seen_child {W : Type} (c : ActionProvider W) : ActionProvider W :=
  mkActionProvider (ap_name c) [] (ap_registered c) (fun _ => false).

Module Fixtures.

(** The state of the ledger and its trace. *)
Definition LedgerState : Type := @RpcState Ledger.sdk.

(** A method that is not [async] and throws when it is called. *)
Definition failing : ActionMetadata LedgerState :=
  {| am_name := lit "always_fails";
     am_description := lit "Throws";
     am_schema := GetWalletDetailsSchema;
     am_invoke := fun _ => Throw (new_Error (lit "not implemented"));
     am_walletProvider := false |}.

Definition failingProvider : ActionProvider LedgerState :=
  mkActionProvider (lit "failing") [] (Some [(lit "alwaysFails", failing)]) (fun _ => true).

(** A provider for the main network with a child of its own. *)
Definition nestedChild : ActionProvider LedgerState :=
  mkActionProvider (lit "child") [Ledger.plainProvider; failingProvider]
    (WalletActionProvider_registered LedgerState Ledger.toFixed9)
    (fun n => match n with mainnet => true | testnet => false end).

Definition parent : ActionProvider LedgerState :=
  mkActionProvider (lit "parent") [nestedChild] None (fun _ => true).

Definition parentAgent : TonAgent LedgerState :=
  {| walletProvider := Ledger.sampleWallet; actionProviders := [parent] |}.

End Fixtures.

(* ====================================================================== *)
(** ** Vocabulary of the further properties *)
(* ====================================================================== *)

(** The events a run adds to the trace. *)
Definition added {sdk : TonSdk} (s s' : RpcState) (events : list SdkEvent) : Prop :=
  trace s' = trace s ++ events.

(** The names a provider's class declares, with those of its children. *)
Definition declared_names {W : Type} (p : ActionProvider W) : list jsstring :=
  flat_map (fun q => map (@am_name W) (values_of q)) (p :: ap_actionProviders p).

(** A round that ends in an error. *)
Definition fails (r : Round) : bool :=
  match round_error r with
  | Some _ => true
  | None => false
  end.

(** Three rounds in a row that fail, the third with [e]. *)
Definition three_in_a_row (e : Thrown) (rounds : list Round) : Prop :=
  exists pre r1 r2 r3 post,
    rounds = pre ++ r1 :: r2 :: r3 :: post
    /\ fails r1 = true /\ fails r2 = true /\ round_error r3 = Some e.

(* ====================================================================== *)
(** * Properties *)
(* ====================================================================== *)

(** ** Strings *)

Lemma trimStart_nil_iff (s : jsstring) :
  Js.trimStart s = [] <-> blank s = true.
Proof.
  induction s as [|c r IH]; simpl.
  - split; reflexivity.
  - destruct (Js.isWhiteSpace c); simpl.
    + exact IH.
    + split; discriminate.
Qed.

Lemma trimStart_head (s : jsstring) (c : N) (r : jsstring) :
  Js.trimStart s = c :: r -> Js.isWhiteSpace c = false.
Proof.
  induction s as [|d t IH]; simpl; [discriminate|].
  destruct (Js.isWhiteSpace d) eqn:E; [exact IH|].
  intros H; inversion H; subst; exact E.
Qed.

Lemma blank_rev (s : jsstring) : blank (rev s) = blank s.
Proof.
  unfold blank. induction s as [|c r IH]; simpl; [reflexivity|].
  rewrite forallb_app, IH; simpl.
  rewrite andb_true_r. apply andb_comm.
Qed.

Lemma trimEnd_nil_iff (s : jsstring) :
  Js.trimEnd s = [] <-> blank s = true.
Proof.
  unfold Js.trimEnd. rewrite <- blank_rev, <- trimStart_nil_iff.
  split; intros H.
  - apply (f_equal (@rev N)) in H. rewrite rev_involutive in H. exact H.
  - rewrite H. reflexivity.
Qed.

Lemma trim_nil_iff (s : jsstring) :
  Js.trim s = [] <-> blank s = true.
Proof.
  unfold Js.trim. rewrite trimEnd_nil_iff. split; intros H.
  - apply trimStart_nil_iff.
    destruct (Js.trimStart s) as [|c r] eqn:E; [reflexivity|].
    apply trimStart_head in E. simpl in H. rewrite E in H. discriminate.
  - apply trimStart_nil_iff in H. rewrite H. reflexivity.
Qed.

Lemma eqb_nil (s : jsstring) :
  Js.eqb s [] = match s with [] => true | _ => false end.
Proof. destruct s; reflexivity. Qed.

Lemma name_check_blank (name : jsstring) :
  Js.falsy (Some name) || Js.eqb (Js.trim name) [] = blank name.
Proof.
  destruct (blank name) eqn:B.
  - apply trim_nil_iff in B. rewrite B. apply orb_true_r.
  - destruct name as [|c r]; [discriminate|]. simpl Js.falsy. simpl orb.
    rewrite eqb_nil. destruct (Js.trim (c :: r)) eqn:T; [|reflexivity].
    apply trim_nil_iff in T. congruence.
Qed.

(** ** Construction of an action provider *)

Example trim_sample :
  Js.trim (lit "  wallet ") = lit "wallet" /\ blank [32; 9; 160; 8239]%N = true.
Proof. split; reflexivity. Qed.

(** C7. Constructing an action provider with a name that is empty or made
    of white space only throws an [ActionProviderError]; with any other
    name it succeeds, and the provider's name is the given string. *)
Theorem ActionProvider_new_checks_name :
  forall (W : Type) (name : jsstring) (children : list (ActionProvider W))
         (registered : option (StoredActionMetadata W))
         (supportsNetwork : Network -> bool),
    (exists e, ActionProvider_new name children registered supportsNetwork = Throw e
               /\ thrown_class e = ClsActionProviderError)
      /\ blank name = true
    \/
    (exists p, ActionProvider_new name children registered supportsNetwork = Ok p
               /\ ap_name p = name
               /\ ap_actionProviders p = children)
      /\ blank name = false.
Proof.
  intros W name children registered supportsNetwork.
  unfold ActionProvider_new. rewrite name_check_blank.
  destruct (blank name).
  - left. split; [|reflexivity]. eexists. split; reflexivity.
  - right. split; [|reflexivity]. eexists. repeat split; reflexivity.
Qed.

(* ====================================================================== *)
(** ** The wallet provider *)
(* ====================================================================== *)

Example configure_sample :
  fst (configureWithWallet Ledger.sampleConfig (Ledger.start Ledger.freshWorld))
  = Ok Ledger.sampleProvider.
Proof. vm_compute. reflexivity. Qed.

Example sample_address :
  getAddress Ledger.sampleProvider = lit "EQ0:abandonabilityable".
Proof. vm_compute. reflexivity. Qed.

(** *** Defaults of the constructor *)

(** C9. A [TonWalletProvider] built from a configuration without a network
    tag reports "mainnet", and one built without a workchain reports
    workchain 0. *)
Theorem TonWalletProvider_new_defaults :
  forall (sdk : TonSdk) (cfg : WalletProviderConfig) (p : TonWalletProvider),
    TonWalletProvider_new cfg = Ok p ->
    (cfg_network cfg = None -> getNetwork p = mainnet)
    /\ (cfg_workchain cfg = None -> getWorkchain p = 0%Z).
Proof.
  intros sdk cfg p H. unfold TonWalletProvider_new in H.
  destruct (cfg_wallet cfg) as [w|]; [|discriminate].
  destruct (cfg_contract cfg) as [c|]; [|discriminate].
  inversion H; subst; clear H.
  unfold getNetwork, getWorkchain; simpl.
  split; intros E; rewrite E; reflexivity.
Qed.

Lemma TonWalletProvider_new_defaults_witness :
  getNetwork Ledger.bareProvider = mainnet
  /\ getWorkchain Ledger.bareProvider = 0%Z.
Proof.
  pose proof (@TonWalletProvider_new_defaults Ledger.sdk Ledger.bareConfig
                Ledger.bareProvider eq_refl) as [Hn Hw].
  split; [exact (Hn eq_refl) | exact (Hw eq_refl)].
Defined.

(** The constructor fails exactly when the wallet or the contract is
    missing. *)
Lemma TonWalletProvider_new_ok :
  forall (sdk : TonSdk) (cfg : WalletProviderConfig) (w : Wallet) (c : Contract),
    cfg_wallet cfg = Some w -> cfg_contract cfg = Some c ->
    exists p, TonWalletProvider_new cfg = Ok p
              /\ wallet p = w /\ contract p = c
              /\ getWorkchain p = number_or (cfg_workchain cfg) 0.
Proof.
  intros sdk cfg w c Hw Hc. unfold TonWalletProvider_new. rewrite Hw, Hc.
  eexists. repeat split.
Qed.

(** *** The factory *)

(** C4. With the endpoint, the key or the mnemonic missing, the factory
    throws a [WalletProviderError] and leaves the world and the trace as
    they were: no client is created and no key is derived. The message
    names a missing field, and names the given one when no other is
    missing. *)
Theorem configureWithWallet_missing_field :
  forall (sdk : TonSdk) (cfg : Config) (s : RpcState) (f : ConfigField),
    field_missing cfg f = true ->
    exists (message : jsstring) (g : ConfigField),
      configureWithWallet cfg s = (Throw (new_WalletProviderError message None), s)
      /\ field_missing cfg g = true
      /\ Js.includes (field_name g) message = true
      /\ ((forall h, field_missing cfg h = true -> h = f) ->
          Js.includes (field_name f) message = true).
Proof.
  intros sdk cfg s f Hf.
  unfold configureWithWallet, try_catch.
  destruct (Js.falsy (TONCENTER_API_URL cfg)) eqn:Eu.
  - exists (lit "TONCENTER_API_URL and TONCENTER_API_KEY are required"), FieldUrl.
    simpl. repeat split; try assumption.
    intros Only. rewrite <- (Only FieldUrl Eu). reflexivity.
  - destruct (Js.falsy (TONCENTER_API_KEY cfg)) eqn:Ek.
    + exists (lit "TONCENTER_API_URL and TONCENTER_API_KEY are required"), FieldKey.
      simpl. repeat split; try assumption.
      intros Only. rewrite <- (Only FieldKey Ek). reflexivity.
    + destruct f; unfold field_missing in Hf; try congruence.
      exists (lit "MNEMONIC_PHRASE is required"), FieldMnemonic.
      simpl. rewrite Hf. simpl. repeat split; assumption.
Qed.

Lemma configureWithWallet_missing_field_witness :
  exists message : jsstring,
    configureWithWallet
      (mkConfig (Some (lit "https://toncenter.com/api/v2/jsonRPC")) None
                (Some (lit "abandon ability able")) None None)
      (Ledger.start Ledger.freshWorld)
    = (Throw (new_WalletProviderError message None), Ledger.start Ledger.freshWorld)
    /\ Js.includes (field_name FieldKey) message = true.
Proof.
  destruct (@configureWithWallet_missing_field Ledger.sdk
              (mkConfig (Some (lit "https://toncenter.com/api/v2/jsonRPC")) None
                        (Some (lit "abandon ability able")) None None)
              (Ledger.start Ledger.freshWorld) FieldKey eq_refl)
    as (message & g & Hrun & _ & _ & Honly).
  exists message. split; [exact Hrun|].
  apply Honly. intros h. destruct h; vm_compute; [discriminate | reflexivity | discriminate].
Defined.

Example missing_key_message :
  fst (configureWithWallet
         (mkConfig (Some (lit "https://toncenter.com/api/v2/jsonRPC")) None
                   (Some (lit "abandon ability able")) None None)
         (Ledger.start Ledger.freshWorld))
  = Throw (new_WalletProviderError
             (lit "TONCENTER_API_URL and TONCENTER_API_KEY are required") None).
Proof. reflexivity. Qed.

(** With its three fields present and the key derivation succeeding, the
    factory returns a provider. *)
Lemma configureWithWallet_succeeds :
  forall (sdk : TonSdk) (cfg : Config) (s : RpcState) (keys : KeyPair),
    (forall f, field_missing cfg f = false) ->
    mnemonicToPrivateKey (mnemonic_words (str_value (MNEMONIC_PHRASE cfg))) = Ok keys ->
    exists p,
      configureWithWallet cfg s = (Ok p, (world s, trace s ++ configure_events cfg keys))
      /\ wallet p = WalletContractV4_create (number_or (WORKCHAIN cfg) 0) (publicKey keys)
      /\ keyPair p = keys
      /\ getNetwork p = match NETWORK cfg with Some n => n | None => mainnet end
      /\ getWorkchain p = number_or (WORKCHAIN cfg) 0.
Proof.
  intros sdk cfg s keys Hall Hkeys.
  pose proof (Hall FieldUrl) as Hu. pose proof (Hall FieldKey) as Hk.
  pose proof (Hall FieldMnemonic) as Hm. unfold field_missing in Hu, Hk, Hm.
  unfold configureWithWallet, try_catch, bind, emit, liftRes, world, trace.
  rewrite Hu, Hk, Hm, Hkeys. simpl.
  eexists. split.
  - repeat rewrite <- app_assoc. reflexivity.
  - unfold getNetwork, getWorkchain. simpl. repeat split.
    destruct (number_or (WORKCHAIN cfg) 0 =? 0)%Z eqn:E; [|reflexivity].
    apply Z.eqb_eq in E. symmetry. exact E.
Qed.

(** A provider the factory returns holds the wallet contract of the key
    pair derived from the mnemonic and of the workchain. *)
Lemma configureWithWallet_inv :
  forall (sdk : TonSdk) (cfg : Config) (s s' : RpcState) (p : TonWalletProvider),
    configureWithWallet cfg s = (Ok p, s') ->
    exists keys,
      mnemonicToPrivateKey (mnemonic_words (str_value (MNEMONIC_PHRASE cfg))) = Ok keys
      /\ wallet p = WalletContractV4_create (number_or (WORKCHAIN cfg) 0) (publicKey keys).
Proof.
  intros sdk cfg s s' p H.
  unfold configureWithWallet, try_catch, bind, emit, liftRes, throw, world, trace in H.
  destruct (Js.falsy (TONCENTER_API_URL cfg) || Js.falsy (TONCENTER_API_KEY cfg)).
  { simpl in H. discriminate. }
  destruct (Js.falsy (MNEMONIC_PHRASE cfg)).
  { simpl in H. discriminate. }
  simpl in H.
  destruct (mnemonicToPrivateKey (mnemonic_words (str_value (MNEMONIC_PHRASE cfg))))
    as [keys|e] eqn:K.
  - exists keys. split; [reflexivity|].
    simpl in H. inversion H; subst. reflexivity.
  - destruct (thrown_class e); discriminate.
Qed.

(** The address of a provider the factory returns is a function of the
    mnemonic and of the workchain alone: neither the endpoint, the key, the
    network tag nor the world enter it. *)
Lemma configureWithWallet_address :
  forall (sdk : TonSdk) (cfg1 cfg2 : Config) (s1 s1' s2 s2' : RpcState)
         (p1 p2 : TonWalletProvider),
    MNEMONIC_PHRASE cfg1 = MNEMONIC_PHRASE cfg2 ->
    number_or (WORKCHAIN cfg1) 0 = number_or (WORKCHAIN cfg2) 0 ->
    configureWithWallet cfg1 s1 = (Ok p1, s1') ->
    configureWithWallet cfg2 s2 = (Ok p2, s2') ->
    getAddress p1 = getAddress p2.
Proof.
  intros sdk cfg1 cfg2 s1 s1' s2 s2' p1 p2 Hm Hw H1 H2.
  apply configureWithWallet_inv in H1. destruct H1 as (k1 & K1 & W1).
  apply configureWithWallet_inv in H2. destruct H2 as (k2 & K2 & W2).
  unfold getAddress. rewrite W1, W2, Hw.
  rewrite Hm in K1. rewrite K1 in K2. inversion K2; subst. reflexivity.
Qed.

(** C5. Two independent calls of the factory with the same configuration,
    each from its own state of the world, return providers with the same
    address. *)
Theorem configureWithWallet_deterministic :
  forall (sdk : TonSdk) (cfg : Config) (s1 s1' s2 s2' : RpcState)
         (p1 p2 : TonWalletProvider),
    configureWithWallet cfg s1 = (Ok p1, s1') ->
    configureWithWallet cfg s2 = (Ok p2, s2') ->
    getAddress p1 = getAddress p2.
Proof.
  intros sdk cfg s1 s1' s2 s2' p1 p2 H1 H2.
  exact (configureWithWallet_address cfg cfg s1 s2 eq_refl eq_refl H1 H2).
Qed.

Lemma configureWithWallet_deterministic_witness :
  exists p1 p2 : TonWalletProvider,
    fst (configureWithWallet Ledger.sampleConfig (Ledger.start Ledger.freshWorld)) = Ok p1
    /\ fst (configureWithWallet Ledger.sampleConfig (Ledger.start Ledger.deployedWorld)) = Ok p2
    /\ getAddress p1 = getAddress p2.
Proof.
  exists Ledger.sampleProvider, Ledger.sampleProvider.
  split; [reflexivity|]. split; [reflexivity|].
  exact (@configureWithWallet_deterministic Ledger.sdk Ledger.sampleConfig
           (Ledger.start Ledger.freshWorld) _
           (Ledger.start Ledger.deployedWorld) _
           Ledger.sampleProvider Ledger.sampleProvider eq_refl eq_refl).
Defined.

(** *** Deployment *)

(** What [isDeployed] does when the wallet's own address parses and the
    state query answers. *)
Lemma isDeployed_run :
  forall (sdk : TonSdk) (p : TonWalletProvider) (s : RpcState) (a : Address)
         (t : AccountStateType) (w1 : World),
    Address_parse (getAddress p) = Ok a ->
    TonClient_getState (tonClient p) a (world s) = (Ok t, w1) ->
    isDeployed p s = (Ok (isActive t), (w1, trace s ++ [EvGetState a])).
Proof.
  intros sdk p s a t w1 Ha Hs.
  unfold isDeployed, try_catch, bind, liftRes, call, bind, emit, perform, ret.
  rewrite Ha. simpl. rewrite Hs. reflexivity.
Qed.

(** C3. For a wallet whose account is active, [deploy] returns the
    "already deployed" message after the state query alone, and a second
    call right after it does the same: the trace grows by the two state
    queries and holds no new submission. *)
Theorem deploy_already_deployed_twice :
  forall (sdk : TonSdk) (p : TonWalletProvider) (s : RpcState) (a : Address)
         (w1 w2 : World),
    Address_parse (getAddress p) = Ok a ->
    TonClient_getState (tonClient p) a (world s) = (Ok active, w1) ->
    TonClient_getState (tonClient p) a w1 = (Ok active, w2) ->
    deploy p s = (Ok already_deployed, (w1, trace s ++ [EvGetState a]))
    /\ deploy p (w1, trace s ++ [EvGetState a])
       = (Ok already_deployed, (w2, trace s ++ [EvGetState a; EvGetState a]))
    /\ filter is_submission (trace s ++ [EvGetState a; EvGetState a])
       = filter is_submission (trace s).
Proof.
  intros sdk p s a w1 w2 Ha H1 H2.
  assert (D : forall (s0 : RpcState) (w : World),
             TonClient_getState (tonClient p) a (world s0) = (Ok active, w) ->
             deploy p s0 = (Ok already_deployed, (w, trace s0 ++ [EvGetState a]))).
  { intros s0 w Hq. unfold deploy, try_catch, bind.
    rewrite (isDeployed_run p s0 Ha Hq). reflexivity. }
  split; [exact (D s w1 H1)|]. split.
  - rewrite (D (w1, trace s ++ [EvGetState a]) w2 H2). simpl.
    rewrite <- app_assoc. reflexivity.
  - rewrite filter_app. simpl. apply app_nil_r.
Qed.

Lemma deploy_already_deployed_twice_witness :
  deploy Ledger.sampleProvider (Ledger.start Ledger.deployedWorld)
  = (Ok already_deployed,
     (Ledger.deployedWorld, [EvGetState Ledger.sampleAddress]))
  /\ deploy Ledger.sampleProvider
       (Ledger.deployedWorld, [EvGetState Ledger.sampleAddress])
     = (Ok already_deployed,
        (Ledger.deployedWorld,
         [EvGetState Ledger.sampleAddress;
          EvGetState Ledger.sampleAddress])).
Proof.
  destruct (@deploy_already_deployed_twice Ledger.sdk Ledger.sampleProvider
              (Ledger.start Ledger.deployedWorld)
              Ledger.sampleAddress
              Ledger.deployedWorld Ledger.deployedWorld
              eq_refl eq_refl eq_refl) as (H1 & H2 & _).
  split; [exact H1 | exact H2].
Defined.

(** On a wallet that is not deployed the same call does submit. *)
Example deploy_fresh_submits :
  deploy Ledger.sampleProvider (Ledger.start Ledger.freshWorld)
  = (Ok (lit "tx0"),
     ({| Ledger.lw_state := active; Ledger.lw_seqno := 1;
         Ledger.lw_balance := 5000000000; Ledger.lw_online := true |},
      [EvGetState Ledger.sampleAddress; EvGetSeqno; EvDeploy 0])).
Proof. vm_compute. reflexivity. Qed.

(** *** Transfers *)

(** C2. When the destination does not parse, [nativeTransfer] fails before
    the sequence number is fetched and before anything is sent: the trace
    grows by the printed diagnostic alone. What it throws is an [Error]
    whose message carries the parser's failure, not a
    [WalletProviderError]. *)
Theorem nativeTransfer_malformed_destination :
  forall (sdk : TonSdk) (p : TonWalletProvider) (to value : jsstring)
         (s : RpcState) (e : Thrown),
    Address_parse to = Throw e ->
    nativeTransfer p to value s
    = (Throw (new_Error (lit "Failed to transfer TON: " +++ thrown_toString e)),
       (world s, trace s ++ [EvConsoleError (lit "Failed to transfer TON:") e]))
    /\ instanceOf (new_Error (lit "Failed to transfer TON: " +++ thrown_toString e))
                  ClsWalletProviderError = false
    /\ filter is_library_call
              (trace s ++ [EvConsoleError (lit "Failed to transfer TON:") e])
       = filter is_library_call (trace s).
Proof.
  intros sdk p to value s e Hp.
  unfold nativeTransfer, try_catch, bind, liftRes. rewrite Hp.
  split; [reflexivity|]. split; [reflexivity|].
  rewrite filter_app. simpl. apply app_nil_r.
Qed.

Lemma nativeTransfer_malformed_destination_witness :
  fst (nativeTransfer Ledger.sampleProvider (lit "not-an-address") (lit "1")
         (Ledger.start Ledger.deployedWorld))
  = Throw (new_Error (lit "Failed to transfer TON: Error: Unknown address type: not-an-address"))
  /\ snd (nativeTransfer Ledger.sampleProvider (lit "not-an-address") (lit "1")
            (Ledger.start Ledger.deployedWorld))
     = (Ledger.deployedWorld,
        [EvConsoleError (lit "Failed to transfer TON:")
           (new_Error (lit "Unknown address type: not-an-address"))]).
Proof.
  destruct (@nativeTransfer_malformed_destination Ledger.sdk Ledger.sampleProvider
              (lit "not-an-address") (lit "1") (Ledger.start Ledger.deployedWorld)
              (new_Error (lit "Unknown address type: not-an-address")) eq_refl)
    as (H & _ & _).
  rewrite H. split; reflexivity.
Defined.

(** A well-formed transfer, for comparison. *)
Example nativeTransfer_sends :
  nativeTransfer Ledger.sampleProvider (lit "EQdest") (lit "2")
    (Ledger.start Ledger.deployedWorld)
  = (Ok (lit "tx7"),
     ({| Ledger.lw_state := active; Ledger.lw_seqno := 8;
         Ledger.lw_balance := 3000000000; Ledger.lw_online := true |},
      [EvGetSeqno; EvSendTransfer 7 (Ledger.address "EQdest") 2000000000%Z])).
Proof. vm_compute. reflexivity. Qed.

(* ====================================================================== *)
(** ** Action providers *)
(* ====================================================================== *)

Section ProviderProperties.
Variable W : Type.

Lemma push_actions_app (wp : WalletProvider W) (values : list (ActionMetadata W)) :
  forall actions,
    push_actions wp actions values = actions ++ map (bound_action wp) values.
Proof.
  unfold push_actions.
  induction values as [|v r IH]; intros actions; simpl.
  - symmetry. apply app_nil_r.
  - rewrite IH, <- app_assoc. reflexivity.
Qed.

Lemma getActions_loop_run (wp : WalletProvider W) (providers : list (ActionProvider W)) :
  forall (actions : list (Action W)) (s : St unit ConsoleLine),
    getActions_loop wp providers actions s
    = (Ok (actions ++ flat_map (contribution wp) providers),
       (world s, trace s ++ flat_map note_of providers)).
Proof.
  induction providers as [|q rest IH]; intros actions [u t]; simpl.
  - rewrite !app_nil_r. reflexivity.
  - unfold contribution at 1, values_of, note_of.
    destruct (ap_registered q) as [m|]; simpl.
    + rewrite IH, push_actions_app, <- app_assoc. reflexivity.
    + unfold bind, emit. simpl. rewrite IH. simpl.
      rewrite <- app_assoc. reflexivity.
Qed.

(** [getActions] of a provider always returns: the contributions of the
    provider and of its children. *)
Lemma ActionProvider_getActions_run (this : ActionProvider W) (wp : WalletProvider W)
    (s : St unit ConsoleLine) :
  ActionProvider_getActions this wp s
  = (Ok (provided wp this), (world s, trace s ++ notes this)).
Proof.
  unfold ActionProvider_getActions, try_catch.
  rewrite getActions_loop_run. reflexivity.
Qed.

Lemma collect_actions_run (wp : WalletProvider W) (providers : list (ActionProvider W)) :
  forall (actions : list (Action W)) (unsupported : list jsstring)
         (s : St unit ConsoleLine),
    collect_actions wp providers actions unsupported s
    = (Ok (actions
             ++ flat_map (provided wp)
                  (filter (fun p => ap_supportsNetwork p (wp_getNetwork wp)) providers),
           unsupported
             ++ map (@ap_name W)
                  (filter (fun p => negb (ap_supportsNetwork p (wp_getNetwork wp)))
                          providers)),
       (world s,
        trace s
          ++ flat_map notes
               (filter (fun p => ap_supportsNetwork p (wp_getNetwork wp)) providers))).
Proof.
  induction providers as [|p rest IH]; intros actions unsupported [u t]; simpl.
  - rewrite !app_nil_r. reflexivity.
  - destruct (ap_supportsNetwork p (wp_getNetwork wp)); simpl.
    + unfold bind. rewrite ActionProvider_getActions_run, IH. simpl.
      rewrite <- !app_assoc. reflexivity.
    + rewrite IH. simpl. rewrite <- app_assoc. reflexivity.
Qed.

Lemma report_unsupported_run (wp : WalletProvider W) (unsupported : list jsstring)
    (s : St unit ConsoleLine) :
  report_unsupported wp unsupported s
  = (Ok tt, (world s, trace s ++ report_lines wp unsupported)).
Proof.
  destruct s as [u t]. destruct unsupported as [|n r]; simpl.
  - unfold ret. rewrite app_nil_r. reflexivity.
  - unfold report_unsupported. simpl. unfold bind, emit. simpl.
    rewrite <- app_assoc. reflexivity.
Qed.

(** What [getActions] of the agent returns and prints. *)
Lemma TonAgent_getActions_run (agent : TonAgent W) (s : St unit ConsoleLine) :
  TonAgent_getActions agent s
  = (Ok (flat_map (provided (walletProvider agent))
           (filter (fun p => ap_supportsNetwork p (wp_getNetwork (walletProvider agent)))
                   (actionProviders agent))),
     (world s,
      trace s
        ++ flat_map notes
             (filter (fun p => ap_supportsNetwork p (wp_getNetwork (walletProvider agent)))
                     (actionProviders agent))
        ++ report_lines (walletProvider agent)
             (map (@ap_name W)
                (filter (fun p => negb (ap_supportsNetwork p
                                          (wp_getNetwork (walletProvider agent))))
                        (actionProviders agent))))).
Proof.
  unfold TonAgent_getActions, bind. rewrite collect_actions_run.
  cbn [fst snd]. rewrite report_unsupported_run.
  unfold ret. cbn [world trace fst snd]. rewrite <- app_assoc. reflexivity.
Qed.

Lemma count_occ_names (l : list (ActionProvider W)) (f : ActionProvider W -> bool)
    (p : ActionProvider W) :
  NoDup (map (@ap_name W) l) -> In p l ->
  count_occ Js.jsstring_eq_dec (map (@ap_name W) (filter f l)) (ap_name p)
  = if f p then 1%nat else 0%nat.
Proof.
  induction l as [|q r IH]; intros Hnd Hin; [contradiction|].
  simpl in Hnd. inversion Hnd as [|x xs Hnot Hrest]; subst.
  assert (Habsent : forall g, count_occ Js.jsstring_eq_dec
                                (map (@ap_name W) (filter g r)) (ap_name q) = 0%nat).
  { intros g. apply count_occ_not_In. intros Hc. apply Hnot.
    apply in_map_iff in Hc. destruct Hc as (y & Hy & Hf).
    apply filter_In in Hf. apply in_map_iff. exists y. tauto. }
  destruct Hin as [->|Hin].
  - simpl. destruct (f p); simpl.
    + destruct (Js.jsstring_eq_dec (ap_name p) (ap_name p)); [|congruence].
      rewrite Habsent. reflexivity.
    + apply Habsent.
  - assert (Hne : ap_name q <> ap_name p).
    { intros E. apply Hnot. rewrite E. apply in_map. exact Hin. }
    simpl. destruct (f q); simpl.
    + destruct (Js.jsstring_eq_dec (ap_name q) (ap_name p)); [congruence|].
      apply IH; assumption.
    + apply IH; assumption.
Qed.

End ProviderProperties.

(** C8. A provider of the list, the provider itself or one of its direct
    children, whose class has no metadata is passed over: [getActions]
    returns what the providers before and after it contribute, and the
    absence leaves a note and no error. *)
Theorem ActionProvider_getActions_absent_metadata :
  forall (W : Type) (this : ActionProvider W) (wp : WalletProvider W)
         (s : St unit ConsoleLine) (before after : list (ActionProvider W))
         (q : ActionProvider W),
    this :: ap_actionProviders this = before ++ q :: after ->
    ap_registered q = None ->
    fst (ActionProvider_getActions this wp s)
    = Ok (flat_map (contribution wp) before ++ flat_map (contribution wp) after)
    /\ In (ConsoleDebug (lit "Note: " +++ ap_name q +++ lit " has no registered actions."))
          (trace (snd (ActionProvider_getActions this wp s))).
Proof.
  intros W this wp s before after q Hall Hq.
  rewrite ActionProvider_getActions_run. unfold provided, notes. rewrite Hall.
  simpl fst. simpl snd. split.
  - rewrite flat_map_app. simpl. unfold contribution at 2, values_of.
    rewrite Hq. reflexivity.
  - unfold trace. simpl. apply in_or_app. right.
    rewrite flat_map_app. apply in_or_app. right. simpl.
    unfold note_of at 1. rewrite Hq. left. reflexivity.
Qed.

Lemma ActionProvider_getActions_absent_metadata_witness :
  fst (ActionProvider_getActions Ledger.walletWithChild Ledger.sampleWallet Ledger.console)
  = Ok (flat_map (contribution Ledger.sampleWallet) [Ledger.walletWithChild] ++ [])
  /\ fst (ActionProvider_getActions Ledger.plainProvider Ledger.sampleWallet Ledger.console)
     = Ok [].
Proof.
  split.
  - exact (proj1 (@ActionProvider_getActions_absent_metadata _ Ledger.walletWithChild
                    Ledger.sampleWallet Ledger.console
                    [Ledger.walletWithChild] [] Ledger.plainProvider eq_refl eq_refl)).
  - exact (proj1 (@ActionProvider_getActions_absent_metadata _ Ledger.plainProvider
                    Ledger.sampleWallet Ledger.console
                    [] [] Ledger.plainProvider eq_refl eq_refl)).
Defined.

(** ** The agent *)

(** C6. The agent goes through its providers in order. The providers that
    do not support the wallet's network contribute nothing, and their
    names, one entry for each of them and in order, make the list that is
    reported; the call still returns. The providers that support it
    contribute all their actions, bound to the agent's wallet provider, in
    order. With distinct provider names, the name of a provider that was
    passed over occurs once in the list, and that of a supported one does
    not occur. *)
Theorem TonAgent_getActions_by_network :
  forall (W : Type) (agent : TonAgent W) (s : St unit ConsoleLine),
    let wp := walletProvider agent in
    let supports := fun p : ActionProvider W => ap_supportsNetwork p (wp_getNetwork wp) in
    let supported := filter supports (actionProviders agent) in
    let skipped := filter (fun p => negb (supports p)) (actionProviders agent) in
    fst (collect_actions wp (actionProviders agent) [] [] s)
    = Ok (flat_map (provided wp) supported, map (@ap_name W) skipped)
    /\ TonAgent_getActions agent s
       = (Ok (flat_map (provided wp) supported),
          (world s,
           trace s ++ flat_map (@notes W) supported
                   ++ report_lines wp (map (@ap_name W) skipped)))
    /\ (NoDup (map (@ap_name W) (actionProviders agent)) ->
        forall p, In p (actionProviders agent) ->
          count_occ Js.jsstring_eq_dec (map (@ap_name W) skipped) (ap_name p)
          = if supports p then 0%nat else 1%nat).
Proof.
  intros W agent s wp supports supported skipped.
  split; [|split].
  - rewrite collect_actions_run. reflexivity.
  - apply TonAgent_getActions_run.
  - intros Hnd p Hin. unfold skipped.
    rewrite (@count_occ_names W (actionProviders agent)
               (fun p => negb (supports p)) p Hnd Hin).
    destruct (supports p); reflexivity.
Qed.

Lemma TonAgent_getActions_by_network_witness :
  fst (collect_actions Ledger.sampleWallet (actionProviders Ledger.sampleAgent) [] []
         Ledger.console)
  = Ok (provided Ledger.sampleWallet (walletActionProvider _ Ledger.toFixed9),
        [lit "mainnet-only"])
  /\ count_occ Js.jsstring_eq_dec [lit "mainnet-only"] (lit "mainnet-only") = 1%nat.
Proof.
  destruct (@TonAgent_getActions_by_network _ Ledger.sampleAgent Ledger.console)
    as (Hcollect & _ & Hcount).
  split.
  - etransitivity; [exact Hcollect|]. reflexivity.
  - refine (Hcount _ Ledger.mainnetProvider _).
    + repeat constructor; simpl; intuition discriminate.
    + right. left. reflexivity.
Defined.

Example sampleAgent_console :
  trace (snd (TonAgent_getActions Ledger.sampleAgent Ledger.console))
  = [ ConsoleLog
        [ lit "Warning: The following action providers are not supported on the current network and will be unavailable: mainnet-only" ];
      ConsoleLog [ lit "Current network:"; lit "testnet" ] ].
Proof. vm_compute. reflexivity. Qed.

(** With the child that has no metadata the wallet provider still gives its
    three actions, and prints the note. *)
Example walletWithChild_actions :
  ActionProvider_getActions Ledger.walletWithChild Ledger.sampleWallet Ledger.console
  = (Ok (provided Ledger.sampleWallet (walletActionProvider _ Ledger.toFixed9)),
     (tt, [ConsoleDebug (lit "Note: plain has no registered actions.")])).
Proof. rewrite ActionProvider_getActions_run. reflexivity. Qed.

(** C1. For a wallet provider on "testnet" and the wallet action provider
    without children as the only provider, [getActions] returns three
    actions, named get_wallet_details, transfer_ton and
    ensure_wallet_deployed, in that order. *)
Theorem wallet_agent_actions :
  forall (W : Type) (toFixed9 : bigint -> jsstring) (wp : WalletProvider W)
         (s : St unit ConsoleLine),
    wp_getNetwork wp = testnet ->
    createWalletActionProvider toFixed9 [] = Ok (walletActionProvider W toFixed9)
    /\ exists actions : list (Action W),
         TonAgent_getActions
           (TonAgent_new toFixed9 wp (Some [walletActionProvider W toFixed9])) s
         = (Ok actions, s)
         /\ map (@a_name W) actions
            = [lit "get_wallet_details"; lit "transfer_ton"; lit "ensure_wallet_deployed"]
         /\ List.length actions = 3%nat.
Proof.
  intros W toFixed9 wp s Hnet.
  split; [reflexivity|].
  pose proof (@TonAgent_getActions_run W
                (TonAgent_new toFixed9 wp (Some [walletActionProvider W toFixed9])) s)
    as Hrun.
  cbn [walletProvider actionProviders TonAgent_new] in Hrun.
  cbn [filter walletActionProvider ap_supportsNetwork
       WalletActionProvider_supportsNetwork negb map] in Hrun.
  eexists. split.
  - rewrite Hrun. destruct s as [u t]. simpl. rewrite app_nil_r. reflexivity.
  - split; reflexivity.
Qed.

Lemma wallet_agent_actions_witness :
  exists actions : list (Action RpcState),
    TonAgent_getActions
      (TonAgent_new Ledger.toFixed9 Ledger.sampleWallet
         (Some [walletActionProvider RpcState Ledger.toFixed9])) Ledger.console
    = (Ok actions, Ledger.console)
    /\ map (@a_name RpcState) actions
       = [lit "get_wallet_details"; lit "transfer_ton"; lit "ensure_wallet_deployed"]
    /\ List.length actions = 3%nat.
Proof.
  exact (proj2 (@wallet_agent_actions RpcState Ledger.toFixed9 Ledger.sampleWallet
                  Ledger.console eq_refl)).
Defined.

(* ====================================================================== *)
(** ** The transfer action *)
(* ====================================================================== *)

(** The second action of the wallet action provider is [transfer_ton], and
    invoking it calls [transferTon] with the bound wallet provider. *)
Lemma transfer_ton_action :
  forall (W : Type) (toFixed9 : bigint -> jsstring) (wp : WalletProvider W),
  exists action : Action W,
    nth_error (provided wp (walletActionProvider W toFixed9)) 1 = Some action
    /\ a_name action = lit "transfer_ton"
    /\ forall args, a_invoke action args = Ok (transferTon (VWalletProvider wp) args).
Proof.
  intros W toFixed9 wp. eexists. split; [reflexivity|]. split; reflexivity.
Qed.

(** C10. [transferTon] fails with a [WalletActionError] and without calling
    [nativeTransfer] when the destination or the value is missing (nothing
    is called) and when the wallet is not deployed (only [isDeployed] is
    called). Every failure of [transferTon], these included, is a
    [WalletActionError] with the message "Failed to transfer TON" and the
    underlying error as its cause. *)
Theorem transferTon_failures :
  forall (W : Type) (wp : WalletProvider W),
    (forall (args : JsVal W) (to value : option jsstring) (s : St W (WalletCall)),
        prop args (lit "to") = Ok to ->
        prop args (lit "value") = Ok value ->
        Js.falsy to || Js.falsy value = true ->
        transferTon (VWalletProvider wp) args s
        = (Throw (transfer_failure arguments_required), s))
    /\ (forall (args : JsVal W) (to value : option jsstring) (s : St W (WalletCall))
               (w1 : W),
           prop args (lit "to") = Ok to ->
           prop args (lit "value") = Ok value ->
           Js.falsy to || Js.falsy value = false ->
           wp_isDeployed wp (world s) = (Ok false, w1) ->
           transferTon (VWalletProvider wp) args s
           = (Throw (transfer_failure not_deployed), (w1, trace s ++ [CallIsDeployed])))
    /\ (forall (receiver args : JsVal W) (s s' : St W (WalletCall)) (e : Thrown),
           transferTon receiver args s = (Throw e, s') ->
           exists cause, e = transfer_failure cause
                         /\ instanceOf e ClsWalletActionError = true).
Proof.
  intros W wp. split; [|split].
  - intros args to value s Hto Hvalue Hmissing.
    unfold transferTon, try_catch, bind, liftRes.
    rewrite Hto, Hvalue, Hmissing. reflexivity.
  - intros args to value s w1 Hto Hvalue Hpresent Hdep.
    unfold transferTon, try_catch, bind, liftRes.
    rewrite Hto, Hvalue, Hpresent. simpl.
    unfold call, bind, emit, perform. simpl. rewrite Hdep. reflexivity.
  - intros receiver args s s' e Hrun.
    unfold transferTon, try_catch in Hrun.
    match type of Hrun with
    | (match ?body with _ => _ end) = _ => destruct body as [[txt|cause] s0]
    end.
    + discriminate.
    + unfold throw in Hrun. inversion Hrun; subst.
      exists cause. split; reflexivity.
Qed.

Lemma transferTon_failures_witness :
  transferTon (VWalletProvider Ledger.sampleWallet)
    (VObject RpcState [(lit "to", lit "EQdest")]) (Ledger.acting Ledger.deployedWorld)
  = (Throw (transfer_failure arguments_required), Ledger.acting Ledger.deployedWorld)
  /\ transferTon (VWalletProvider Ledger.sampleWallet)
       (Ledger.transferArgs "EQdest" "2") (Ledger.acting Ledger.freshWorld)
     = (Throw (transfer_failure not_deployed),
        ((Ledger.freshWorld, [EvGetState Ledger.sampleAddress]), [CallIsDeployed]))
  /\ exists cause,
       new_WalletActionError (lit "Failed to transfer TON")
         (Some (new_Error (lit "Failed to transfer TON: Error: Unknown address type: nowhere")))
       = transfer_failure cause.
Proof.
  destruct (@transferTon_failures RpcState Ledger.sampleWallet) as (Ha & Hb & Hc).
  split; [|split].
  - exact (Ha (VObject RpcState [(lit "to", lit "EQdest")]) (Some (lit "EQdest")) None
              (Ledger.acting Ledger.deployedWorld) eq_refl eq_refl eq_refl).
  - exact (Hb (Ledger.transferArgs "EQdest" "2") (Some (lit "EQdest")) (Some (lit "2"))
              (Ledger.acting Ledger.freshWorld)
              (Ledger.freshWorld, [EvGetState Ledger.sampleAddress])
              eq_refl eq_refl eq_refl eq_refl).
  - destruct (Hc (VWalletProvider Ledger.sampleWallet)
                 (Ledger.transferArgs "nowhere" "2")
                 (Ledger.acting Ledger.deployedWorld) _ _ eq_refl) as (cause & Hcause & _).
    exists cause. exact Hcause.
Defined.

(** A transfer that goes through, for comparison. *)
Example transferTon_succeeds :
  fst (transferTon (VWalletProvider Ledger.sampleWallet)
         (Ledger.transferArgs "EQdest" "2") (Ledger.acting Ledger.deployedWorld))
  = Ok (Js.join [10%N]
          [ lit "## Transfer Successful";
            lit "- **Transaction Hash**: `tx7`";
            lit "- **Current Balance**: `5000000000`";
            lit "- **Amount**: 2 TON";
            lit "- **Recipient**: `EQdest`" ])
  /\ trace (snd (transferTon (VWalletProvider Ledger.sampleWallet)
                   (Ledger.transferArgs "EQdest" "2")
                   (Ledger.acting Ledger.deployedWorld)))
     = [CallIsDeployed; CallGetBalance; CallNativeTransfer (lit "EQdest") (lit "2")].
Proof. split; vm_compute; reflexivity. Qed.

(* ====================================================================== *)
(** * Further properties of the wallet provider *)
(* ====================================================================== *)

(** ** The factory *)

Lemma instanceOf_WalletProviderError (e : Thrown) :
  instanceOf e ClsWalletProviderError = true ->
  thrown_class e = ClsWalletProviderError.
Proof.
  unfold instanceOf. destruct (thrown_class e); intros H; try discriminate; reflexivity.
Qed.

(** Whatever makes the factory fail, what it throws is a
    [WalletProviderError]. *)
Theorem configureWithWallet_throws_WalletProviderError :
  forall (sdk : TonSdk) (cfg : Config) (s s' : RpcState) (e : Thrown),
    configureWithWallet cfg s = (Throw e, s') ->
    thrown_class e = ClsWalletProviderError.
Proof.
  intros sdk cfg s s' e H.
  unfold configureWithWallet, try_catch in H.
  match type of H with
  | (match ?body with _ => _ end) = _ => destruct body as [[p|e0] s0]
  end; [discriminate|].
  destruct (instanceOf e0 ClsWalletProviderError) eqn:E;
    unfold throw in H; inversion H; subst.
  - apply instanceOf_WalletProviderError. exact E.
  - reflexivity.
Qed.

Lemma configureWithWallet_throws_WalletProviderError_witness :
  exists (e : Thrown) (s' : RpcState),
    configureWithWallet Replay.doubledSpaceConfig (Replay.start []) = (Throw e, s')
    /\ thrown_class e = ClsWalletProviderError.
Proof.
  eexists. eexists. split; [reflexivity|].
  exact (@configureWithWallet_throws_WalletProviderError Replay.sdk
           Replay.doubledSpaceConfig (Replay.start []) _ _ eq_refl).
Defined.

(** When the key derivation fails, the factory has created the client and
    nothing else: it throws "Failed to configure wallet provider" with the
    library's error as the cause, before any wallet contract is made. *)
Theorem configureWithWallet_key_derivation_fails :
  forall (sdk : TonSdk) (cfg : Config) (s : RpcState) (e : Thrown),
    (forall f, field_missing cfg f = false) ->
    mnemonicToPrivateKey (mnemonic_words (str_value (MNEMONIC_PHRASE cfg))) = Throw e ->
    instanceOf e ClsWalletProviderError = false ->
    configureWithWallet cfg s
    = (Throw (new_WalletProviderError (lit "Failed to configure wallet provider") (Some e)),
       (world s,
        trace s ++ [ EvTonClientNew (str_value (TONCENTER_API_URL cfg))
                                    (str_value (TONCENTER_API_KEY cfg));
                     EvMnemonicToPrivateKey
                       (mnemonic_words (str_value (MNEMONIC_PHRASE cfg))) ])).
Proof.
  intros sdk cfg s e Hall Hkeys Hcls.
  pose proof (Hall FieldUrl) as Hu. pose proof (Hall FieldKey) as Hk.
  pose proof (Hall FieldMnemonic) as Hm. unfold field_missing in Hu, Hk, Hm.
  unfold configureWithWallet, try_catch, bind, emit, liftRes, world, trace.
  rewrite Hu, Hk, Hm, Hkeys. cbn [orb fst snd]. rewrite Hcls.
  unfold throw. rewrite <- app_assoc. reflexivity.
Qed.

Lemma configureWithWallet_key_derivation_fails_witness :
  configureWithWallet Replay.doubledSpaceConfig (Replay.start [])
  = (Throw (new_WalletProviderError (lit "Failed to configure wallet provider")
              (Some (mkThrown (ClsForeign (lit "RangeError")) (lit "Invalid mnemonic") None))),
     ([], [ EvTonClientNew (lit "https://testnet.toncenter.com/api/v2/jsonRPC") (lit "key");
            EvMnemonicToPrivateKey [lit "abandon"; []; lit "ability"] ])).
Proof.
  refine (@configureWithWallet_key_derivation_fails Replay.sdk
            Replay.doubledSpaceConfig (Replay.start []) _ _ eq_refl eq_refl).
  intros f. destruct f; reflexivity.
Defined.

(** The success of the factory, on the sample configuration. *)
Lemma configureWithWallet_succeeds_witness :
  exists p : TonWalletProvider,
    configureWithWallet Ledger.sampleConfig (Ledger.start Ledger.freshWorld)
    = (Ok p, (Ledger.freshWorld,
              configure_events Ledger.sampleConfig
                {| publicKey := lit "abandonabilityable";
                   secretKey := rev (lit "abandonabilityable") |}))
    /\ getNetwork p = testnet
    /\ getWorkchain p = 0%Z.
Proof.
  destruct (@configureWithWallet_succeeds Ledger.sdk Ledger.sampleConfig
              (Ledger.start Ledger.freshWorld)
              {| publicKey := lit "abandonabilityable";
                 secretKey := rev (lit "abandonabilityable") |})
    as (p & Hrun & _ & _ & Hn & Hw).
  - intros f. destruct f; reflexivity.
  - reflexivity.
  - exists p. split; [exact Hrun|]. split; [exact Hn | exact Hw].
Defined.

(** ** The words of the mnemonic *)

Lemma split_from_length (sep : N) (s : jsstring) :
  forall cur, List.length (Js.split_from sep cur s) = S (count_occ N.eq_dec s sep).
Proof.
  induction s as [|c r IH]; intros cur; simpl; [reflexivity|].
  destruct (N.eqb_spec c sep) as [E|E].
  - simpl. rewrite IH. destruct (N.eq_dec c sep); [reflexivity|contradiction].
  - rewrite IH. destruct (N.eq_dec c sep); [contradiction|reflexivity].
Qed.

Lemma split_from_no_sep (sep : N) (s : jsstring) :
  forall cur, ~ In sep cur ->
    Forall (fun w => ~ In sep w) (Js.split_from sep cur s).
Proof.
  induction s as [|c r IH]; intros cur Hcur; simpl.
  - constructor; [|constructor]. rewrite <- in_rev. exact Hcur.
  - destruct (N.eqb_spec c sep) as [E|E].
    + constructor.
      * rewrite <- in_rev. exact Hcur.
      * apply IH. intros [].
    + apply IH. intros [H|H]; [congruence|contradiction].
Qed.

Lemma trimStart_incl (s : jsstring) (x : N) : In x (Js.trimStart s) -> In x s.
Proof.
  induction s as [|c r IH]; simpl; [tauto|].
  destruct (Js.isWhiteSpace c); [|tauto].
  intros H. right. apply IH. exact H.
Qed.

Lemma trim_incl (s : jsstring) (x : N) : In x (Js.trim s) -> In x s.
Proof.
  unfold Js.trim, Js.trimEnd. intros H.
  apply trimStart_incl. apply in_rev. apply trimStart_incl. apply in_rev. exact H.
Qed.

Lemma trimStart_fixed (s : jsstring) :
  match s with [] => True | c :: _ => Js.isWhiteSpace c = false end ->
  Js.trimStart s = s.
Proof.
  destruct s as [|c r]; simpl; [reflexivity|].
  intros H. rewrite H. reflexivity.
Qed.

Lemma trimStart_split (s : jsstring) :
  exists pre, s = pre ++ Js.trimStart s.
Proof.
  induction s as [|c r [pre IH]]; simpl.
  - exists []. reflexivity.
  - destruct (Js.isWhiteSpace c).
    + exists (c :: pre). simpl. rewrite <- IH. reflexivity.
    + exists []. reflexivity.
Qed.

Lemma trimStart_idempotent (s : jsstring) :
  Js.trimStart (Js.trimStart s) = Js.trimStart s.
Proof.
  apply trimStart_fixed.
  destruct (Js.trimStart s) as [|c r] eqn:E; [exact I|].
  exact (trimStart_head s E).
Qed.

Lemma trim_idempotent (s : jsstring) : Js.trim (Js.trim s) = Js.trim s.
Proof.
  unfold Js.trim, Js.trimEnd.
  set (t := Js.trimStart s). set (u := Js.trimStart (rev t)).
  assert (Hu : Js.trimStart u = u) by apply trimStart_idempotent.
  assert (Hhead : Js.trimStart (rev u) = rev u).
  { apply trimStart_fixed.
    destruct (rev u) as [|c r] eqn:E; [exact I|].
    destruct (trimStart_split (rev t)) as [pre Hpre]. fold u in Hpre.
    apply (f_equal (@rev N)) in Hpre.
    rewrite rev_involutive, rev_app_distr, E in Hpre. simpl in Hpre.
    unfold t in Hpre. exact (trimStart_head s Hpre). }
  rewrite Hhead, rev_involutive, Hu. reflexivity.
Qed.

(** The factory cuts the phrase at every space: there is one word more
    than there are spaces, so two spaces in a row give an empty word; no
    word holds a space or starts or ends with white space. *)
Theorem mnemonic_words_shape :
  forall (phrase : jsstring),
    List.length (mnemonic_words phrase) = S (count_occ N.eq_dec phrase 32%N)
    /\ Forall (fun w => ~ In 32%N w /\ Js.trim w = w) (mnemonic_words phrase).
Proof.
  intros phrase. unfold mnemonic_words, Js.split. split.
  - rewrite length_map. apply split_from_length.
  - apply Forall_map.
    pose proof (@split_from_no_sep 32%N phrase [] (fun H => H)) as H.
    induction H as [|w l Hw Hl IH]; constructor.
    + split; [|apply trim_idempotent].
      intros Hin. apply Hw. apply trim_incl. exact Hin.
    + exact IH.
Qed.

Example mnemonic_words_doubled_space :
  mnemonic_words (lit "abandon  ability") = [lit "abandon"; []; lit "ability"].
Proof. reflexivity. Qed.

Lemma split_from_word (sep : N) (w : jsstring) :
  ~ In sep w ->
  forall cur rest,
    Js.split_from sep cur (w ++ rest) = Js.split_from sep (rev w ++ cur) rest.
Proof.
  induction w as [|c r IH]; intros Hw cur rest; simpl; [reflexivity|].
  destruct (N.eqb_spec c sep) as [E|E].
  - exfalso. apply Hw. left. exact E.
  - rewrite IH.
    + rewrite <- app_assoc. reflexivity.
    + intros H. apply Hw. right. exact H.
Qed.

Lemma split_join (sep : N) (words : list jsstring) :
  words <> [] ->
  Forall (fun w => ~ In sep w) words ->
  Js.split sep (Js.join [sep] words) = words.
Proof.
  unfold Js.split. intros Hne Hall.
  induction Hall as [|w l Hw Hl IH]; [contradiction|].
  destruct l as [|w2 r].
  - simpl. rewrite <- (app_nil_r w) at 1.
    rewrite (@split_from_word sep w Hw). simpl. rewrite app_nil_r, rev_involutive. reflexivity.
  - change (Js.join [sep] (w :: w2 :: r)) with (w ++ [sep] ++ Js.join [sep] (w2 :: r)).
    rewrite (@split_from_word sep w Hw). simpl. rewrite N.eqb_refl.
    rewrite app_nil_r, rev_involutive. f_equal. apply IH. discriminate.
Qed.

(** Words joined by single spaces come back: for a phrase made by joining
    words that hold no space and no white space at their ends, the
    factory derives the key from exactly those words. *)
Theorem mnemonic_words_join :
  forall (words : list jsstring),
    words <> [] ->
    Forall (fun w => ~ In 32%N w /\ Js.trim w = w) words ->
    mnemonic_words (Js.join (lit " ") words) = words.
Proof.
  intros words Hne Hall. unfold mnemonic_words.
  change (lit " ") with [32%N].
  rewrite split_join; [|exact Hne|].
  - induction Hall as [|w l [_ Hw] Hl IH]; [contradiction|].
    simpl. rewrite Hw. f_equal.
    destruct l as [|w2 r]; [reflexivity|]. apply IH. discriminate.
  - clear Hne. induction Hall as [|w l [Hw _] Hl IH]; constructor; assumption.
Qed.

Lemma mnemonic_words_join_witness :
  mnemonic_words (Js.join (lit " ") [lit "abandon"; lit "ability"; lit "able"])
  = [lit "abandon"; lit "ability"; lit "able"].
Proof.
  apply mnemonic_words_join; [discriminate|].
  repeat constructor; try reflexivity;
    simpl; intros H; repeat (destruct H as [H|H]; [discriminate|]); exact H.
Defined.

(** ** The asynchronous methods *)

(** Unfolds the operations of a computation down to pairs. *)
Ltac unfold_run :=
  repeat progress
    (unfold rethrow_as_Error, try_catch, call, bind, emit, perform, liftRes, ret, throw,
       world, trace);
  cbn [fst snd].

Section WalletMethods.
Context {sdk : TonSdk}.


Lemma returned_inv {A : Type} (body : Rpc A) (handler : Thrown -> Rpc A)
    (s s' : RpcState) (a : A) :
  (forall e s0 s1 b, handler e s0 <> (Ok b, s1)) ->
  try_catch body handler s = (Ok a, s') -> body s = (Ok a, s').
Proof.
  unfold try_catch. intros Hh. destruct (body s) as [[b|cause] s0]; [tauto|].
  intros H. exfalso. exact (Hh _ _ _ _ H).
Qed.

Lemma rethrow_never_returns {A : Type} (label prefix : jsstring) :
  forall e s0 s1 (b : A), rethrow_as_Error label prefix e s0 <> (Ok b, s1).
Proof. intros e s0 s1 b. unfold rethrow_as_Error, bind, emit, throw. discriminate. Qed.

Lemma getBalance_added (p : TonWalletProvider) (s : RpcState) :
  exists events, added s (snd (getBalance p s)) events
                 /\ filter is_submission events = [].
Proof.
  unfold getBalance, added. unfold_run.
  destruct (Contract_getBalance (contract p) (fst s)) as [[b|e] w1]; cbn [fst snd].
  - exists [EvGetBalance]. split; reflexivity.
  - exists [EvGetBalance; EvConsoleError (lit "Failed to get wallet balance:") e].
    rewrite <- app_assoc. split; reflexivity.
Qed.

Lemma isDeployed_added (p : TonWalletProvider) (s : RpcState) :
  exists events, added s (snd (isDeployed p s)) events
                 /\ filter is_submission events = [].
Proof.
  unfold isDeployed, added. unfold_run.
  destruct (Address_parse (getAddress p)) as [a|e]; cbn [fst snd].
  - destruct (TonClient_getState (tonClient p) a (fst s)) as [[t|e] w1]; cbn [fst snd].
    + exists [EvGetState a]. split; reflexivity.
    + exists [EvGetState a; EvConsoleError (lit "Failed to check if wallet is deployed:") e].
      rewrite <- app_assoc. split; reflexivity.
  - exists [EvConsoleError (lit "Failed to check if wallet is deployed:") e].
    split; reflexivity.
Qed.

End WalletMethods.

(** The queries do not submit: whatever [getBalance] and [isDeployed]
    return or throw, the trace gains no transfer and no deployment. *)
Theorem queries_do_not_submit :
  forall (sdk : TonSdk) (p : TonWalletProvider) (s : RpcState),
    filter is_submission (trace (snd (getBalance p s))) = filter is_submission (trace s)
    /\ filter is_submission (trace (snd (isDeployed p s))) = filter is_submission (trace s).
Proof.
  intros sdk p s. split.
  - destruct (getBalance_added p s) as (events & Hadd & Hnone).
    unfold added in Hadd. rewrite Hadd, filter_app, Hnone. apply app_nil_r.
  - destruct (isDeployed_added p s) as (events & Hadd & Hnone).
    unfold added in Hadd. rewrite Hadd, filter_app, Hnone. apply app_nil_r.
Qed.



(** ** Transfers *)

(** A hash that [nativeTransfer] returns is the hash of one transfer that
    was sent: to the parsed destination, for the converted amount, with
    the sequence number fetched in this call, signed with the provider's
    secret key, not bouncing, with an empty body. Nothing else was called. *)
Theorem nativeTransfer_returned :
  forall (sdk : TonSdk) (p : TonWalletProvider) (to value hash : jsstring)
         (s s' : RpcState),
    nativeTransfer p to value s = (Ok hash, s') ->
    exists (a : Address) (amount : bigint) (seqno : Z) (r : TxResult) (w1 : World),
      Address_parse to = Ok a
      /\ toNano value = Ok amount
      /\ Contract_getSeqno (contract p) (world s) = (Ok seqno, w1)
      /\ Contract_sendTransfer (contract p) seqno (secretKey (keyPair p)) a amount
           false emptyCell sendMode w1 = (Ok r, world s')
      /\ TxResult_hashHex r = Ok hash
      /\ trace s' = trace s ++ [EvGetSeqno; EvSendTransfer seqno a amount].
Proof.
  intros sdk p to value hash s s' H.
  apply returned_inv in H; [|apply rethrow_never_returns].
  revert H. unfold_run.
  destruct (Address_parse to) as [a|e]; cbn [fst snd]; [|discriminate].
  destruct (toNano value) as [amount|e]; cbn [fst snd]; [|discriminate].
  destruct (Contract_getSeqno (contract p) (fst s)) as [[seqno|e] w1] eqn:Hseq;
    cbn [fst snd]; [|discriminate].
  destruct (Contract_sendTransfer (contract p) seqno (secretKey (keyPair p)) a amount
              false emptyCell sendMode w1) as [[r|e] w2] eqn:Hsend;
    cbn [fst snd]; [|discriminate].
  destruct (TxResult_hashHex r) as [h|e] eqn:Hh; cbn [fst snd]; [|discriminate].
  intros H. inversion H; subst. cbn [fst snd].
  exists a, amount, seqno, r, w1. rewrite <- app_assoc. repeat split; assumption.
Qed.

Lemma nativeTransfer_returned_witness :
  exists (a : @Address Ledger.sdk) (amount : bigint) (seqno : Z),
    @Address_parse Ledger.sdk (lit "EQdest") = Ok a
    /\ @toNano Ledger.sdk (lit "2") = Ok amount
    /\ trace (snd (nativeTransfer Ledger.sampleProvider (lit "EQdest") (lit "2")
                     (Ledger.start Ledger.deployedWorld)))
       = [EvGetSeqno; EvSendTransfer seqno a amount].
Proof.
  destruct (@nativeTransfer_returned Ledger.sdk Ledger.sampleProvider
              (lit "EQdest") (lit "2") (lit "tx7")
              (Ledger.start Ledger.deployedWorld) _ eq_refl)
    as (a & amount & seqno & r & w1 & Ha & Hv & _ & _ & _ & Ht).
  exists a, amount, seqno. split; [exact Ha|]. split; [exact Hv | exact Ht].
Defined.

(** [nativeTransfer] checks both of its arguments before it contacts the
    network: with an amount that does not convert, as with a destination
    that does not parse, it throws with the world untouched and no library
    call made. *)
Theorem nativeTransfer_invalid_amount :
  forall (sdk : TonSdk) (p : TonWalletProvider) (to value : jsstring)
         (s : RpcState) (a : Address) (e : Thrown),
    Address_parse to = Ok a ->
    toNano value = Throw e ->
    nativeTransfer p to value s
    = (Throw (new_Error (lit "Failed to transfer TON: " +++ thrown_toString e)),
       (world s, trace s ++ [EvConsoleError (lit "Failed to transfer TON:") e])).
Proof.
  intros sdk p to value s a e Ha Hv.
  unfold nativeTransfer. unfold_run. rewrite Ha, Hv. reflexivity.
Qed.

Lemma nativeTransfer_invalid_amount_witness :
  nativeTransfer Ledger.sampleProvider (lit "EQdest") (lit "two")
    (Ledger.start Ledger.deployedWorld)
  = (Throw (new_Error (lit "Failed to transfer TON: Error: Invalid number")),
     (Ledger.deployedWorld,
      [EvConsoleError (lit "Failed to transfer TON:") (new_Error (lit "Invalid number"))])).
Proof.
  exact (@nativeTransfer_invalid_amount Ledger.sdk Ledger.sampleProvider
           (lit "EQdest") (lit "two") (Ledger.start Ledger.deployedWorld)
           (Ledger.address "EQdest") (new_Error (lit "Invalid number")) eq_refl eq_refl).
Defined.

(** No call submits twice: whatever [nativeTransfer], [sendTransaction]
    and [deploy] return or throw, each adds at most one transfer or
    deployment to the trace. There is no retry. *)
Theorem at_most_one_submission :
  forall (sdk : TonSdk) (p : TonWalletProvider) (to value : jsstring)
         (payload : option Cell) (bounce : bool) (s : RpcState),
    (exists events,
        trace (snd (nativeTransfer p to value s)) = trace s ++ events
        /\ (List.length (filter is_submission events) <= 1)%nat)
    /\ (exists events,
           trace (snd (sendTransaction p to value payload bounce s)) = trace s ++ events
           /\ (List.length (filter is_submission events) <= 1)%nat)
    /\ (exists events,
           trace (snd (deploy p s)) = trace s ++ events
           /\ (List.length (filter is_submission events) <= 1)%nat).
Proof.
  intros sdk p to value payload bounce s.
  assert (Htransfer : forall (body : Cell) (b : bool) (label prefix : jsstring),
    exists events,
      trace (snd (try_catch
        (destinationAddress <- liftRes (Address_parse to) ;;
         amount <- liftRes (toNano value) ;;
         seqno <- call EvGetSeqno (Contract_getSeqno (contract p)) ;;
         result <- call (EvSendTransfer seqno destinationAddress amount)
                        (Contract_sendTransfer (contract p) seqno (secretKey (keyPair p))
                           destinationAddress amount b body sendMode) ;;
         liftRes (TxResult_hashHex result))
        (rethrow_as_Error label prefix) s)) = trace s ++ events
      /\ (List.length (filter is_submission events) <= 1)%nat).
  { intros body b label prefix. unfold_run.
    destruct (Address_parse to) as [a|e]; cbn [fst snd].
    2:{ eexists. split; [reflexivity|]. simpl. lia. }
    destruct (toNano value) as [amount|e]; cbn [fst snd].
    2:{ eexists. split; [reflexivity|]. simpl. lia. }
    destruct (Contract_getSeqno (contract p) (fst s)) as [[seqno|e] w1]; cbn [fst snd].
    2:{ eexists. split; [rewrite <- app_assoc; reflexivity|]. simpl. lia. }
    destruct (Contract_sendTransfer (contract p) seqno (secretKey (keyPair p)) a amount
                b body sendMode w1) as [[r|e] w2]; cbn [fst snd].
    2:{ eexists. split; [rewrite <- !app_assoc; reflexivity|]. simpl. lia. }
    destruct (TxResult_hashHex r) as [h|e]; cbn [fst snd].
    - eexists. split; [rewrite <- !app_assoc; reflexivity|]. simpl. lia.
    - eexists. split; [rewrite <- !app_assoc; reflexivity|]. simpl. lia. }
  split; [|split].
  - exact (Htransfer emptyCell false _ _).
  - exact (Htransfer (match payload with Some c => c | None => emptyCell end) bounce _ _).
  - unfold deploy.
    destruct (isDeployed_added p s) as (ev0 & Hadd & Hnone).
    unfold added, trace in Hadd. unfold trace.
    unfold try_catch at 1. unfold bind at 1.
    destruct (isDeployed p s) as [[d|e] s0] eqn:Hd; cbn [fst snd] in Hadd.
    + destruct d.
      * cbn [fst snd]. exists ev0. split; [exact Hadd|]. rewrite Hnone. simpl. lia.
      * unfold_run.
        destruct (Contract_getSeqno (contract p) (fst s0)) as [[seqno|e] w1]; cbn [fst snd].
        2:{ exists (ev0 ++ [EvGetSeqno; EvConsoleError (lit "Failed to deploy wallet:") e]).
            split; [rewrite Hadd, <- !app_assoc; reflexivity|].
            rewrite filter_app, Hnone. simpl. lia. }
        destruct (Contract_deploy (contract p) seqno (secretKey (keyPair p)) w1)
          as [[r|e] w2]; cbn [fst snd].
        2:{ exists (ev0 ++ [EvGetSeqno; EvDeploy seqno;
                            EvConsoleError (lit "Failed to deploy wallet:") e]).
            split; [rewrite Hadd, <- !app_assoc; reflexivity|].
            rewrite filter_app, Hnone. simpl. lia. }
        destruct (TxResult_hashHex r) as [h|e]; cbn [fst snd].
        -- exists (ev0 ++ [EvGetSeqno; EvDeploy seqno]).
           split; [rewrite Hadd, <- !app_assoc; reflexivity|].
           rewrite filter_app, Hnone. simpl. lia.
        -- exists (ev0 ++ [EvGetSeqno; EvDeploy seqno;
                           EvConsoleError (lit "Failed to deploy wallet:") e]).
           split; [rewrite Hadd, <- !app_assoc; reflexivity|].
           rewrite filter_app, Hnone. simpl. lia.
    + unfold_run.
      exists (ev0 ++ [EvConsoleError (lit "Failed to deploy wallet:") e]).
      split; [rewrite Hadd, <- app_assoc; reflexivity|].
      rewrite filter_app, Hnone. simpl. lia.
Qed.

(** [sendTransaction] without a payload and without bounce is
    [nativeTransfer]: the two leave the same world and the same library
    calls behind, and one returns a hash exactly when the other returns it,
    in the same state. They differ in the text of their failures only. *)
Theorem sendTransaction_default_is_nativeTransfer :
  forall (sdk : TonSdk) (p : TonWalletProvider) (to value : jsstring) (s : RpcState),
    world (snd (sendTransaction p to value None false s))
    = world (snd (nativeTransfer p to value s))
    /\ filter is_library_call (trace (snd (sendTransaction p to value None false s)))
       = filter is_library_call (trace (snd (nativeTransfer p to value s)))
    /\ (forall (hash : jsstring) (s' : RpcState),
           sendTransaction p to value None false s = (Ok hash, s')
           <-> nativeTransfer p to value s = (Ok hash, s')).
Proof.
  intros sdk p to value s.
  unfold sendTransaction, nativeTransfer.
  match goal with
  | |- context [try_catch ?body (rethrow_as_Error (lit "Failed to transfer TON:") _)] =>
      set (B := body)
  end.
  change (world (snd (try_catch B
            (rethrow_as_Error (lit "Failed to send transaction:")
                              (lit "Failed to send transaction: ")) s))
          = world (snd (try_catch B
              (rethrow_as_Error (lit "Failed to transfer TON:")
                                (lit "Failed to transfer TON: ")) s))
          /\ filter is_library_call (trace (snd (try_catch B
               (rethrow_as_Error (lit "Failed to send transaction:")
                                 (lit "Failed to send transaction: ")) s)))
             = filter is_library_call (trace (snd (try_catch B
                 (rethrow_as_Error (lit "Failed to transfer TON:")
                                   (lit "Failed to transfer TON: ")) s)))
          /\ (forall hash s',
                 try_catch B
                   (rethrow_as_Error (lit "Failed to send transaction:")
                                     (lit "Failed to send transaction: ")) s = (Ok hash, s')
                 <-> try_catch B
                       (rethrow_as_Error (lit "Failed to transfer TON:")
                                         (lit "Failed to transfer TON: ")) s = (Ok hash, s'))).
  unfold try_catch. destruct (B s) as [[h|e] s0].
  - repeat split; intros H; exact H.
  - unfold rethrow_as_Error, bind, emit, throw, world, trace. cbn [fst snd].
    split; [reflexivity|]. split.
    + rewrite !filter_app. reflexivity.
    + intros hash s'. split; discriminate.
Qed.

Example sendTransaction_sends :
  sendTransaction Ledger.sampleProvider (lit "EQdest") (lit "2") None false
    (Ledger.start Ledger.deployedWorld)
  = nativeTransfer Ledger.sampleProvider (lit "EQdest") (lit "2")
      (Ledger.start Ledger.deployedWorld).
Proof. vm_compute. reflexivity. Qed.

(** ** Deployment *)

(** For an account in any state but active, frozen included, [deploy]
    fetches the sequence number, submits one deployment with it, signed
    with the provider's secret key, and returns the hash. *)
Theorem deploy_not_active :
  forall (sdk : TonSdk) (p : TonWalletProvider) (s : RpcState) (a : Address)
         (t : AccountStateType) (seqno : Z) (r : TxResult) (hash : jsstring)
         (w1 w2 w3 : World),
    Address_parse (getAddress p) = Ok a ->
    TonClient_getState (tonClient p) a (world s) = (Ok t, w1) ->
    t <> active ->
    Contract_getSeqno (contract p) w1 = (Ok seqno, w2) ->
    Contract_deploy (contract p) seqno (secretKey (keyPair p)) w2 = (Ok r, w3) ->
    TxResult_hashHex r = Ok hash ->
    deploy p s = (Ok hash, (w3, trace s ++ [EvGetState a; EvGetSeqno; EvDeploy seqno])).
Proof.
  intros sdk p s a t seqno r hash w1 w2 w3 Ha Hstate Ht Hseq Hdep Hhash.
  unfold deploy. unfold try_catch at 1. unfold bind at 1.
  rewrite (isDeployed_run p s Ha Hstate).
  assert (Hfalse : isActive t = false) by (destruct t; [contradiction Ht| |]; reflexivity).
  rewrite Hfalse. unfold_run. rewrite Hseq. cbn [fst snd]. rewrite Hdep. cbn [fst snd].
  rewrite Hhash. rewrite <- !app_assoc. reflexivity.
Qed.

Lemma deploy_not_active_witness :
  deploy Ledger.sampleProvider
    (Ledger.start {| Ledger.lw_state := frozen; Ledger.lw_seqno := 4;
                     Ledger.lw_balance := 1; Ledger.lw_online := true |})
  = (Ok (lit "tx4"),
     ({| Ledger.lw_state := active; Ledger.lw_seqno := 5;
         Ledger.lw_balance := 1; Ledger.lw_online := true |},
      [EvGetState Ledger.sampleAddress; EvGetSeqno; EvDeploy 4])).
Proof.
  refine (@deploy_not_active Ledger.sdk Ledger.sampleProvider
            (Ledger.start {| Ledger.lw_state := frozen; Ledger.lw_seqno := 4;
                             Ledger.lw_balance := 1; Ledger.lw_online := true |})
            Ledger.sampleAddress frozen 4 4%Z (lit "tx4") _ _ _
            eq_refl eq_refl _ eq_refl eq_refl eq_refl).
  discriminate.
Defined.

(** When the state query fails, [deploy] fails without asking for the
    sequence number and without submitting. Its message wraps the message
    of [isDeployed], which wraps the library's, and both failures are
    printed. *)
Theorem deploy_state_query_fails :
  forall (sdk : TonSdk) (p : TonWalletProvider) (s : RpcState) (a : Address)
         (e : Thrown) (w1 : World),
    Address_parse (getAddress p) = Ok a ->
    TonClient_getState (tonClient p) a (world s) = (Throw e, w1) ->
    let inner := new_Error (lit "Failed to check if wallet is deployed: "
                              +++ thrown_toString e) in
    deploy p s
    = (Throw (new_Error (lit "Failed to deploy wallet: Error: Failed to check if wallet is deployed: "
                           +++ thrown_toString e)),
       (w1, trace s ++ [ EvGetState a;
                         EvConsoleError (lit "Failed to check if wallet is deployed:") e;
                         EvConsoleError (lit "Failed to deploy wallet:") inner ])).
Proof.
  intros sdk p s a e w1 Ha Hstate inner. unfold world in Hstate.
  unfold deploy, isDeployed. unfold_run. rewrite Ha. cbn [fst snd].
  rewrite Hstate. cbn [fst snd]. rewrite <- !app_assoc.
  unfold thrown_toString at 1. cbn [thrown_class thrown_message new_Error class_name].
  reflexivity.
Qed.

Lemma deploy_state_query_fails_witness :
  fst (deploy Ledger.sampleProvider
         (Ledger.start {| Ledger.lw_state := uninit; Ledger.lw_seqno := 0;
                          Ledger.lw_balance := 0; Ledger.lw_online := false |}))
  = Throw (new_Error (lit "Failed to deploy wallet: Error: Failed to check if wallet is deployed: AxiosError: Network Error")).
Proof.
  exact (f_equal fst
           (@deploy_state_query_fails Ledger.sdk Ledger.sampleProvider
              (Ledger.start {| Ledger.lw_state := uninit; Ledger.lw_seqno := 0;
                               Ledger.lw_balance := 0; Ledger.lw_online := false |})
              Ledger.sampleAddress Ledger.offline _ eq_refl eq_refl)).
Defined.

(* ====================================================================== *)
(** * Further properties of the action providers and of the agent *)
(* ====================================================================== *)

Lemma contribution_same (W : Type) (wp : WalletProvider W) (c d : ActionProvider W) :
  ap_registered d = ap_registered c -> contribution wp d = contribution wp c.
Proof. unfold contribution, values_of. intros ->. reflexivity. Qed.

Lemma note_of_same (W : Type) (c d : ActionProvider W) :
  ap_name d = ap_name c -> ap_registered d = ap_registered c -> note_of d = note_of c.
Proof. unfold note_of. intros -> ->. reflexivity. Qed.

(** Composition has one level. [getActions] reads, of each child, the name
    and the metadata of its class and nothing more: the children of a
    child contribute no action, and a child's [supportsNetwork] is never
    asked. *)
Theorem ActionProvider_getActions_one_level :
  forall (W : Type) (name : jsstring) (children : list (ActionProvider W))
         (registered : option (StoredActionMetadata W)) (supports : Network -> bool)
         (f : ActionProvider W -> ActionProvider W)
         (wp : WalletProvider W) (s : St unit ConsoleLine),
    (forall c, In c children ->
               ap_name (f c) = ap_name c /\ ap_registered (f c) = ap_registered c) ->
    ActionProvider_getActions (mkActionProvider name (map f children) registered supports) wp s
    = ActionProvider_getActions (mkActionProvider name children registered supports) wp s.
Proof.
  intros W name children registered supports f wp s Hf.
  rewrite !ActionProvider_getActions_run. unfold provided, notes.
  cbn [ap_actionProviders flat_map].
  assert (Hc : flat_map (contribution wp) (map f children)
               = flat_map (contribution wp) children).
  { induction children as [|c r IH]; [reflexivity|]. simpl.
    destruct (Hf c (or_introl eq_refl)) as [_ Hreg].
    rewrite (@contribution_same W wp c (f c) Hreg).
    rewrite IH; [reflexivity|]. intros d Hd. apply Hf. right. exact Hd. }
  assert (Hn : flat_map (@note_of W) (map f children) = flat_map (@note_of W) children).
  { clear Hc. induction children as [|c r IH]; [reflexivity|]. simpl.
    destruct (Hf c (or_introl eq_refl)) as [Hname Hreg].
    rewrite (@note_of_same W c (f c) Hname Hreg).
    rewrite IH; [reflexivity|]. intros d Hd. apply Hf. right. exact Hd. }
  rewrite Hc, Hn. reflexivity.
Qed.

Lemma ActionProvider_getActions_one_level_witness :
  ActionProvider_getActions
    (mkActionProvider (lit "parent") (map seen_child [Fixtures.nestedChild]) None
       (fun _ => true))
    Ledger.sampleWallet Ledger.console
  = ActionProvider_getActions Fixtures.parent Ledger.sampleWallet Ledger.console.
Proof.
  apply (@ActionProvider_getActions_one_level RpcState (lit "parent")
           [Fixtures.nestedChild] None (fun _ => true) seen_child).
  intros c Hc. split; reflexivity.
Defined.

(** On "testnet" the agent returns the three wallet actions of the child,
    which supports the main network only, and none of the child's own
    children. *)
Example parentAgent_actions :
  TonAgent_getActions Fixtures.parentAgent Ledger.console
  = (Ok (provided Ledger.sampleWallet (walletActionProvider _ Ledger.toFixed9)),
     (tt, [ConsoleDebug (lit "Note: parent has no registered actions.")])).
Proof. rewrite TonAgent_getActions_run. reflexivity. Qed.

(** The agent's list is the concatenation of what it returns for the parts
    of its provider list: nothing is merged or removed, so a provider that
    is listed twice gives its actions, with their names, twice. *)
Theorem TonAgent_getActions_app :
  forall (W : Type) (wp : WalletProvider W) (l1 l2 : list (ActionProvider W))
         (s : St unit ConsoleLine),
  exists a1 a2 : list (Action W),
    fst (TonAgent_getActions (mkTonAgent wp l1) s) = Ok a1
    /\ fst (TonAgent_getActions (mkTonAgent wp l2) s) = Ok a2
    /\ fst (TonAgent_getActions (mkTonAgent wp (l1 ++ l2)) s) = Ok (a1 ++ a2).
Proof.
  intros W wp l1 l2 s. rewrite !TonAgent_getActions_run. cbn [fst walletProvider actionProviders].
  eexists. eexists. split; [reflexivity|]. split; [reflexivity|].
  rewrite filter_app, flat_map_app. reflexivity.
Qed.

Example wallet_provider_twice :
  exists actions,
    fst (TonAgent_getActions
           (mkTonAgent Ledger.sampleWallet
              [walletActionProvider _ Ledger.toFixed9; walletActionProvider _ Ledger.toFixed9])
           Ledger.console) = Ok actions
    /\ map (@a_name RpcState) actions
       = [ lit "get_wallet_details"; lit "transfer_ton"; lit "ensure_wallet_deployed";
           lit "get_wallet_details"; lit "transfer_ton"; lit "ensure_wallet_deployed" ].
Proof. eexists. split; reflexivity. Qed.

Lemma notes_no_log (W : Type) (l : list (ActionProvider W)) :
  existsb is_console_log (flat_map notes l) = false.
Proof.
  induction l as [|p r IH]; [reflexivity|]. simpl. rewrite existsb_app, IH, orb_false_r.
  unfold notes. generalize (p :: ap_actionProviders p). intros q.
  induction q as [|c t IHq]; [reflexivity|]. simpl. rewrite existsb_app, IHq, orb_false_r.
  unfold note_of. destruct (ap_registered c); reflexivity.
Qed.

Lemma skipn_length_app {A : Type} (l r : list A) : skipn (List.length l) (l ++ r) = r.
Proof. induction l as [|x t IH]; [reflexivity|]. simpl. exact IH. Qed.

(** The agent prints its warning exactly when one of its providers does
    not support the wallet's network. *)
Theorem TonAgent_getActions_warns :
  forall (W : Type) (agent : TonAgent W) (s : St unit ConsoleLine),
    existsb is_console_log
      (skipn (List.length (trace s)) (trace (snd (TonAgent_getActions agent s))))
    = negb (forallb (fun p => ap_supportsNetwork p (wp_getNetwork (walletProvider agent)))
                    (actionProviders agent)).
Proof.
  intros W agent s. rewrite TonAgent_getActions_run. cbn [snd trace].
  rewrite skipn_length_app, existsb_app, notes_no_log. cbn [orb].
  generalize (wp_getNetwork (walletProvider agent)). intros net.
  generalize (walletProvider agent). intros wp.
  induction (actionProviders agent) as [|p r IH]; [reflexivity|].
  cbn [filter forallb]. destruct (ap_supportsNetwork p net); cbn [negb andb map].
  - exact IH.
  - reflexivity.
Qed.

(** ** Invoking an action *)




(** What the handler of an action method makes of a failure. *)
Lemma wrapped_inv {W A : Type} (body : M W WalletCall A) (message : jsstring)
    (s s' : St W WalletCall) (e : Thrown) :
  try_catch body (fun error => throw (new_WalletActionError message (Some error))) s
  = (Throw e, s') ->
  exists cause, body s = (Throw cause, s')
                /\ e = new_WalletActionError message (Some cause).
Proof.
  unfold try_catch. destruct (body s) as [[a|cause] s0]; [discriminate|].
  unfold throw. intros H. inversion H; subst. exists cause. split; reflexivity.
Qed.

(** ** The wallet actions *)

(** [get_wallet_details] reads and nothing else. It asks the wallet
    provider for the balance and then, when that succeeds, for the
    deployment state; on a [TonWalletProvider] no transfer and no deployment
    is submitted, whatever the library answers. *)
Theorem getWalletDetails_reads_only :
  forall (sdk : TonSdk) (toFixed9 : bigint -> jsstring) (p : TonWalletProvider)
         (args : JsVal RpcState) (s : St RpcState WalletCall),
    (trace (snd (getWalletDetails toFixed9 (VWalletProvider (asWalletProvider p)) args s))
     = trace s ++ [CallGetBalance]
     \/ trace (snd (getWalletDetails toFixed9 (VWalletProvider (asWalletProvider p)) args s))
        = trace s ++ [CallGetBalance; CallIsDeployed])
    /\ filter is_submission
         (trace (world (snd (getWalletDetails toFixed9
                               (VWalletProvider (asWalletProvider p)) args s))))
       = filter is_submission (trace (world s)).
Proof.
  intros sdk toFixed9 p args [rs calls].
  destruct (getBalance_added p rs) as (ev1 & Hadd1 & Hnone1).
  unfold getWalletDetails, receiver.
  unfold try_catch, call, bind, emit, perform, liftRes, ret, throw, added, world, trace in *.
  cbn [fst snd asWalletProvider wp_getBalance wp_isDeployed] in *.
  destruct (getBalance p rs) as [[b|e] rs1] eqn:Hb; cbn [fst snd] in *.
  - destruct (isDeployed_added p rs1) as (ev2 & Hadd2 & Hnone2).
    unfold added, trace in Hadd2.
    destruct (isDeployed p rs1) as [[d|e] rs2] eqn:Hd; cbn [fst snd] in *;
      (split; [right; rewrite <- app_assoc; reflexivity|]);
      rewrite Hadd2, Hadd1, !filter_app, Hnone1, Hnone2, !app_nil_r;
      reflexivity.
  - split; [left; reflexivity|].
    rewrite Hadd1, filter_app, Hnone1, app_nil_r. reflexivity.
Qed.

Example getWalletDetails_report :
  fst (getWalletDetails Ledger.toFixed9 (VWalletProvider Ledger.sampleWallet)
         (VObject _ []) (Ledger.acting Ledger.deployedWorld))
  = Ok (Js.join [10%N]
          [ lit "## Wallet Details";
            lit "- **Provider**: TON Wallet V4";
            lit "- **Address**: `EQ0:abandonabilityable`";
            lit "- **Network**: testnet";
            lit "- **TON Balance**: 5.000000000 TON";
            lit "- **Deployed**: Yes" ]).
Proof. vm_compute. reflexivity. Qed.

(** [get_wallet_details], whatever its argument: when the balance and the
    deployment state are read, it returns the report of the provider's
    name, address, network, balance and state; and every failure is a
    [WalletActionError] "Failed to get wallet details" with the underlying
    error as its cause. *)
Theorem getWalletDetails_cases :
  forall (W : Type) (toFixed9 : bigint -> jsstring) (wp : WalletProvider W)
         (args : JsVal W) (s : St W WalletCall),
    (forall (balance : bigint) (deployed : bool) (w1 w2 : W),
        wp_getBalance wp (world s) = (Ok balance, w1) ->
        wp_isDeployed wp w1 = (Ok deployed, w2) ->
        getWalletDetails toFixed9 (VWalletProvider wp) args s
        = (Ok (Js.join [10%N]
                 [ lit "## Wallet Details";
                   lit "- **Provider**: " +++ wp_getName wp;
                   lit "- **Address**: `" +++ wp_getAddress wp +++ lit "`";
                   lit "- **Network**: " +++ Network_toString (wp_getNetwork wp);
                   lit "- **TON Balance**: " +++ toFixed9 balance +++ lit " TON";
                   lit "- **Deployed**: " +++ (if deployed then lit "Yes" else lit "No") ]),
           (w2, trace s ++ [CallGetBalance; CallIsDeployed])))
    /\ (forall s' e,
          getWalletDetails toFixed9 (VWalletProvider wp) args s = (Throw e, s') ->
          exists cause,
            e = new_WalletActionError (lit "Failed to get wallet details") (Some cause)).
Proof.
  intros W toFixed9 wp args s. split.
  - intros balance deployed w1 w2 Hb Hd. unfold world in Hb.
    unfold getWalletDetails, receiver. unfold_run.
    rewrite Hb. cbn [fst snd]. rewrite Hd. cbn [fst snd].
    rewrite <- app_assoc. reflexivity.
  - intros s' e Hrun. apply wrapped_inv in Hrun. destruct Hrun as (cause & _ & ->).
    exists cause. reflexivity.
Qed.

Lemma getWalletDetails_cases_witness :
  getWalletDetails Ledger.toFixed9 (VWalletProvider Ledger.sampleWallet) (VUndefined _)
    (Ledger.acting Ledger.freshWorld)
  = (Ok (Js.join [10%N]
           [ lit "## Wallet Details";
             lit "- **Provider**: TON Wallet V4";
             lit "- **Address**: `EQ0:abandonabilityable`";
             lit "- **Network**: testnet";
             lit "- **TON Balance**: 5.000000000 TON";
             lit "- **Deployed**: No" ]),
     ((Ledger.freshWorld, [EvGetBalance; EvGetState Ledger.sampleAddress]),
      [CallGetBalance; CallIsDeployed])).
Proof.
  exact (proj1 (@getWalletDetails_cases Fixtures.LedgerState Ledger.toFixed9
                  Ledger.sampleWallet (VUndefined _) (Ledger.acting Ledger.freshWorld))
               5000000000%Z false _ _ eq_refl eq_refl).
Defined.

(** The report of a deployment that was started. *)
Lemma ensureWalletDeployed_run (W : Type) (wp : WalletProvider W) (args : JsVal W)
    (s : St W WalletCall) (w1 w2 : W) (txHash : jsstring) :
  wp_isDeployed wp (world s) = (Ok false, w1) ->
  wp_deploy wp w1 = (Ok txHash, w2) ->
  ensureWalletDeployed (VWalletProvider wp) args s
  = (Ok (Js.join [10%N]
           [ lit "## Wallet Deployment Initiated";
             lit "- **Transaction Hash**: `" +++ txHash +++ lit "`";
             lit "- The wallet deployment has been initiated. Please wait for confirmation." ]),
     (w2, trace s ++ [CallIsDeployed; CallDeploy])).
Proof.
  intros Hd Hdep. unfold world in Hd. unfold ensureWalletDeployed, receiver.
  unfold_run. rewrite Hd. cbn [fst snd]. rewrite Hdep. cbn [fst snd].
  rewrite <- app_assoc. reflexivity.
Qed.

(** [ensure_wallet_deployed]: for a deployed wallet it reports so and does
    not call [deploy]; for one that is not, it calls [deploy] once and
    reports the hash it gets; and every failure is a [WalletActionError]
    "Failed to deploy wallet" with the underlying error as its cause. *)
Theorem ensureWalletDeployed_cases :
  forall (W : Type) (wp : WalletProvider W) (args : JsVal W) (s : St W WalletCall),
    (forall w1, wp_isDeployed wp (world s) = (Ok true, w1) ->
       ensureWalletDeployed (VWalletProvider wp) args s
       = (Ok (lit "Wallet is already deployed and ready to use."),
          (w1, trace s ++ [CallIsDeployed])))
    /\ (forall w1 w2 txHash,
          wp_isDeployed wp (world s) = (Ok false, w1) ->
          wp_deploy wp w1 = (Ok txHash, w2) ->
          ensureWalletDeployed (VWalletProvider wp) args s
          = (Ok (Js.join [10%N]
                   [ lit "## Wallet Deployment Initiated";
                     lit "- **Transaction Hash**: `" +++ txHash +++ lit "`";
                     lit "- The wallet deployment has been initiated. Please wait for confirmation." ]),
             (w2, trace s ++ [CallIsDeployed; CallDeploy])))
    /\ (forall s' e,
          ensureWalletDeployed (VWalletProvider wp) args s = (Throw e, s') ->
          exists cause,
            e = new_WalletActionError (lit "Failed to deploy wallet") (Some cause)).
Proof.
  intros W wp args s. split; [|split].
  - intros w1 Hd. unfold world in Hd. unfold ensureWalletDeployed, receiver.
    unfold_run. rewrite Hd. reflexivity.
  - intros w1 w2 txHash Hd Hdep. exact (ensureWalletDeployed_run wp args s Hd Hdep).
  - intros s' e Hrun. apply wrapped_inv in Hrun. destruct Hrun as (cause & _ & ->).
    exists cause. reflexivity.
Qed.

Lemma ensureWalletDeployed_cases_witness :
  ensureWalletDeployed (VWalletProvider Ledger.sampleWallet) (VObject _ [])
    (Ledger.acting Ledger.deployedWorld)
  = (Ok (lit "Wallet is already deployed and ready to use."),
     ((Ledger.deployedWorld, [EvGetState Ledger.sampleAddress]), [CallIsDeployed]))
  /\ trace (snd (ensureWalletDeployed (VWalletProvider Ledger.sampleWallet) (VObject _ [])
                   (Ledger.acting Ledger.freshWorld)))
     = [CallIsDeployed; CallDeploy].
Proof.
  destruct (@ensureWalletDeployed_cases Fixtures.LedgerState Ledger.sampleWallet
              (VObject _ []) (Ledger.acting Ledger.deployedWorld)) as (Hyes & _ & _).
  destruct (@ensureWalletDeployed_cases Fixtures.LedgerState Ledger.sampleWallet
              (VObject _ []) (Ledger.acting Ledger.freshWorld)) as (_ & Hno & _).
  split.
  - exact (Hyes _ eq_refl).
  - exact (f_equal (fun r => trace (snd r)) (Hno _ _ (lit "tx0") eq_refl eq_refl)).
Defined.

(** The action and [deploy] each ask for the state. When the account
    becomes active between the two questions, nothing is submitted, and
    the action still reports a deployment as initiated, with the
    "already deployed" message of [deploy] in the place of the hash. *)
Theorem ensureWalletDeployed_deployed_meanwhile :
  forall (sdk : TonSdk) (p : TonWalletProvider) (args : JsVal RpcState)
         (s : St RpcState WalletCall) (a : Address) (t : AccountStateType)
         (w1 w2 : World),
    Address_parse (getAddress p) = Ok a ->
    TonClient_getState (tonClient p) a (world (world s)) = (Ok t, w1) ->
    t <> active ->
    TonClient_getState (tonClient p) a w1 = (Ok active, w2) ->
    ensureWalletDeployed (VWalletProvider (asWalletProvider p)) args s
    = (Ok (Js.join [10%N]
             [ lit "## Wallet Deployment Initiated";
               lit "- **Transaction Hash**: `Wallet is already deployed`";
               lit "- The wallet deployment has been initiated. Please wait for confirmation." ]),
       ((w2, trace (world s) ++ [EvGetState a; EvGetState a]),
        trace s ++ [CallIsDeployed; CallDeploy])).
Proof.
  intros sdk p args s a t w1 w2 Ha H1 Ht H2.
  assert (Hfalse : isActive t = false) by (destruct t; [contradiction Ht| |]; reflexivity).
  pose proof (isDeployed_run p (world s) Ha H1) as Hfirst. rewrite Hfalse in Hfirst.
  assert (Hsecond : deploy p (w1, trace (world s) ++ [EvGetState a])
                    = (Ok already_deployed,
                       (w2, (trace (world s) ++ [EvGetState a]) ++ [EvGetState a]))).
  { unfold deploy. unfold try_catch at 1. unfold bind at 1.
    rewrite (@isDeployed_run sdk p (w1, trace (world s) ++ [EvGetState a]) a active w2 Ha H2).
    reflexivity. }
  rewrite (@ensureWalletDeployed_run RpcState (asWalletProvider p) args s
             (w1, trace (world s) ++ [EvGetState a])
             (w2, (trace (world s) ++ [EvGetState a]) ++ [EvGetState a])
             already_deployed Hfirst Hsecond).
  rewrite <- app_assoc. reflexivity.
Qed.

Lemma ensureWalletDeployed_deployed_meanwhile_witness :
  ensureWalletDeployed (VWalletProvider (asWalletProvider Replay.provider))
    (VObject _ []) (Replay.acting [uninit; active])
  = (Ok (Js.join [10%N]
           [ lit "## Wallet Deployment Initiated";
             lit "- **Transaction Hash**: `Wallet is already deployed`";
             lit "- The wallet deployment has been initiated. Please wait for confirmation." ]),
     (([], [EvGetState Replay.walletAddress; EvGetState Replay.walletAddress]),
      [CallIsDeployed; CallDeploy])).
Proof.
  refine (@ensureWalletDeployed_deployed_meanwhile Replay.sdk Replay.provider
            (VObject _ []) (Replay.acting [uninit; active]) Replay.walletAddress
            uninit [active] [] eq_refl eq_refl _ eq_refl).
  discriminate.
Defined.

(** A transfer that goes through. [transfer_ton] asks for the deployment
    state, reads the balance and hands the destination and the amount,
    as given, to [nativeTransfer]. The balance is only read: the transfer
    is attempted whatever it is, and the balance in the report is the one
    read before the transfer. *)
Theorem transferTon_transfers :
  forall (W : Type) (wp : WalletProvider W) (args : JsVal W)
         (to value txHash : jsstring) (balance : bigint)
         (s : St W WalletCall) (w1 w2 w3 : W),
    prop args (lit "to") = Ok (Some to) ->
    prop args (lit "value") = Ok (Some value) ->
    to <> [] -> value <> [] ->
    wp_isDeployed wp (world s) = (Ok true, w1) ->
    wp_getBalance wp w1 = (Ok balance, w2) ->
    wp_nativeTransfer wp to value w2 = (Ok txHash, w3) ->
    transferTon (VWalletProvider wp) args s
    = (Ok (Js.join [10%N]
             [ lit "## Transfer Successful";
               lit "- **Transaction Hash**: `" +++ txHash +++ lit "`";
               lit "- **Current Balance**: `" +++ bigint_toString balance +++ lit "`";
               lit "- **Amount**: " +++ value +++ lit " TON";
               lit "- **Recipient**: `" +++ to +++ lit "`" ]),
       (w3, trace s ++ [CallIsDeployed; CallGetBalance; CallNativeTransfer to value])).
Proof.
  intros W wp args to value txHash balance s w1 w2 w3 Hto Hvalue Hnt Hnv Hd Hb Hn.
  unfold world in Hd. unfold transferTon, receiver. unfold_run.
  rewrite Hto, Hvalue. cbn [fst snd].
  destruct to as [|c r]; [contradiction|]. destruct value as [|c' r']; [contradiction|].
  cbn [Js.falsy orb str_value]. rewrite Hd. cbn [fst snd negb]. rewrite Hb. cbn [fst snd].
  rewrite Hn. cbn [fst snd]. rewrite <- !app_assoc. reflexivity.
Qed.

Lemma transferTon_transfers_witness :
  transferTon (VWalletProvider Ledger.sampleWallet) (Ledger.transferArgs "EQdest" "9")
    (Ledger.acting Ledger.deployedWorld)
  = (Ok (Js.join [10%N]
           [ lit "## Transfer Successful";
             lit "- **Transaction Hash**: `tx7`";
             lit "- **Current Balance**: `5000000000`";
             lit "- **Amount**: 9 TON";
             lit "- **Recipient**: `EQdest`" ]),
     (({| Ledger.lw_state := active; Ledger.lw_seqno := 8;
          Ledger.lw_balance := -4000000000; Ledger.lw_online := true |},
       [ EvGetState Ledger.sampleAddress; EvGetBalance; EvGetSeqno;
         EvSendTransfer 7 (Ledger.address "EQdest") 9000000000%Z ]),
      [CallIsDeployed; CallGetBalance; CallNativeTransfer (lit "EQdest") (lit "9")])).
Proof.
  refine (@transferTon_transfers Fixtures.LedgerState Ledger.sampleWallet
            (Ledger.transferArgs "EQdest" "9") (lit "EQdest") (lit "9") (lit "tx7")
            5000000000%Z (Ledger.acting Ledger.deployedWorld) _ _ _
            eq_refl eq_refl _ _ eq_refl eq_refl eq_refl); discriminate.
Defined.

(* ====================================================================== *)
(** * Further properties of the agent's factory and of the tools *)
(* ====================================================================== *)

(** [TonAgent.from]. With a wallet provider given, it builds the agent
    without touching the world, whatever the configuration holds. Without
    one, a missing endpoint or key makes it throw a plain [Error] of its
    own before the wallet factory is called; with both present it does
    what the wallet factory does, so a missing mnemonic comes out as the
    factory's [WalletProviderError]. *)
Theorem TonAgent_from_cases :
  forall (sdk : TonSdk) (toFixed9 : bigint -> jsstring) (options : TonAgentOptions)
         (s : RpcState),
    (forall wp, opt_walletProvider options = Some wp ->
       TonAgent_from toFixed9 (Some options) s
       = (Ok (TonAgent_new toFixed9 wp (opt_actionProviders options)), s))
    /\ (opt_walletProvider options = None ->
        Js.falsy (TONCENTER_API_URL (opt_config options))
        || Js.falsy (TONCENTER_API_KEY (opt_config options)) = true ->
        TonAgent_from toFixed9 (Some options) s
        = (Throw (new_Error (lit "TONCENTER_API_URL and TONCENTER_API_KEY are required if not providing a walletProvider")),
           s))
    /\ (opt_walletProvider options = None ->
        Js.falsy (TONCENTER_API_URL (opt_config options))
        || Js.falsy (TONCENTER_API_KEY (opt_config options)) = false ->
        TonAgent_from toFixed9 (Some options) s
        = match configureWithWallet (opt_config options) s with
          | (Ok p, s') =>
              (Ok (TonAgent_new toFixed9 (asWalletProvider p) (opt_actionProviders options)),
               s')
          | (Throw e, s') => (Throw e, s')
          end).
Proof.
  intros sdk toFixed9 options s. split; [|split].
  - intros wp Hwp. unfold TonAgent_from. rewrite Hwp. reflexivity.
  - intros Hnone Hmissing. unfold TonAgent_from. rewrite Hnone, Hmissing. reflexivity.
  - intros Hnone Hpresent. unfold TonAgent_from. rewrite Hnone, Hpresent.
    unfold bind, ret.
    destruct (configureWithWallet (opt_config options) s) as [[p|e] s']; reflexivity.
Qed.

Lemma TonAgent_from_cases_witness :
  TonAgent_from Ledger.toFixed9
    (Some (mkTonAgentOptions (mkConfig None None None None None)
             (Some Ledger.sampleWallet) None))
    (Ledger.start Ledger.freshWorld)
  = (Ok (mkTonAgent Ledger.sampleWallet [walletActionProvider _ Ledger.toFixed9]),
     Ledger.start Ledger.freshWorld)
  /\ TonAgent_from Ledger.toFixed9
       (Some (mkTonAgentOptions
                (mkConfig None (Some (lit "key")) (Some (lit "abandon")) None None)
                None None))
       (Ledger.start Ledger.freshWorld)
     = (Throw (new_Error (lit "TONCENTER_API_URL and TONCENTER_API_KEY are required if not providing a walletProvider")),
        Ledger.start Ledger.freshWorld)
  /\ TonAgent_from Ledger.toFixed9
       (Some (mkTonAgentOptions
                (mkConfig (Some (lit "url")) (Some (lit "key")) None None None)
                None None))
       (Ledger.start Ledger.freshWorld)
     = (Throw (new_WalletProviderError (lit "MNEMONIC_PHRASE is required") None),
        Ledger.start Ledger.freshWorld).
Proof.
  split; [|split].
  - exact (proj1 (@TonAgent_from_cases Ledger.sdk Ledger.toFixed9
                    (mkTonAgentOptions (mkConfig None None None None None)
                       (Some Ledger.sampleWallet) None)
                    (Ledger.start Ledger.freshWorld)) _ eq_refl).
  - exact (proj1 (proj2 (@TonAgent_from_cases Ledger.sdk Ledger.toFixed9
                    (mkTonAgentOptions
                       (mkConfig None (Some (lit "key")) (Some (lit "abandon")) None None)
                       None None)
                    (Ledger.start Ledger.freshWorld))) eq_refl eq_refl).
  - exact (proj2 (proj2 (@TonAgent_from_cases Ledger.sdk Ledger.toFixed9
                    (mkTonAgentOptions
                       (mkConfig (Some (lit "url")) (Some (lit "key")) None None None)
                       None None)
                    (Ledger.start Ledger.freshWorld))) eq_refl eq_refl).
Defined.

(** [from()] without an argument has no wallet provider and no endpoint:
    it always throws. *)
Example TonAgent_from_no_argument :
  TonAgent_from Ledger.toFixed9 None (Ledger.start Ledger.freshWorld)
  = (Throw (new_Error (lit "TONCENTER_API_URL and TONCENTER_API_KEY are required if not providing a walletProvider")),
     Ledger.start Ledger.freshWorld).
Proof. reflexivity. Qed.

Lemma map_flat_map {A B C : Type} (f : B -> C) (g : A -> list B) (l : list A) :
  map f (flat_map g l) = flat_map (fun x => map f (g x)) l.
Proof.
  induction l as [|x r IH]; [reflexivity|]. simpl. rewrite map_app, IH. reflexivity.
Qed.

(** The tools handed to the tool-calling runtime are, by name and in
    order, the actions declared by the classes of the providers that
    support the wallet's network, and of their children; building them
    prints what [getActions] prints and cannot fail. *)
Theorem getLangChainTools_names :
  forall (W : Type) (agent : TonAgent W) (s : St unit ConsoleLine),
  exists tools : list (Tool W),
    getLangChainTools agent s = (Ok tools, snd (TonAgent_getActions agent s))
    /\ map (@tool_name W) tools
       = flat_map declared_names
           (filter (fun p => ap_supportsNetwork p (wp_getNetwork (walletProvider agent)))
                   (actionProviders agent)).
Proof.
  intros W agent s. unfold getLangChainTools, bind, ret.
  rewrite TonAgent_getActions_run. cbn [snd].
  eexists. split; [reflexivity|].
  rewrite map_map. cbn [tool_of tool_name].
  rewrite map_flat_map. apply flat_map_ext. intros p.
  unfold provided, declared_names. rewrite map_flat_map.
  apply flat_map_ext. intros q. unfold contribution. rewrite map_map. reflexivity.
Qed.

Example sampleAgent_tools :
  exists tools,
    fst (getLangChainTools Ledger.sampleAgent Ledger.console) = Ok tools
    /\ map (@tool_name _) tools
       = [lit "get_wallet_details"; lit "transfer_ton"; lit "ensure_wallet_deployed"].
Proof. eexists. split; reflexivity. Qed.

(* ====================================================================== *)
(** * Properties of the example program *)
(* ====================================================================== *)

Lemma eqb_true_iff (a b : jsstring) : Js.eqb a b = true <-> a = b.
Proof.
  unfold Js.eqb. destruct (Js.jsstring_eq_dec a b); split; intros H;
    try reflexivity; try assumption; try discriminate; contradiction.
Qed.

(** [loadConfig] accepts the networks "testnet" and "mainnet", written
    exactly so, and takes an unset or empty variable for "testnet"; every
    other value makes it throw an error that quotes the value. *)
Theorem loadConfig_network :
  forall (parseInt10 : jsstring -> JsNumber) (env : ProcessEnv),
    match loadConfig parseInt10 env with
    | Ok cfg =>
        (ec_NETWORK cfg = lit "testnet" \/ ec_NETWORK cfg = lit "mainnet")
        /\ (if Js.falsy (env_NETWORK env) then ec_NETWORK cfg = lit "testnet"
            else env_NETWORK env = Some (ec_NETWORK cfg))
    | Throw e =>
        exists n : jsstring,
          env_NETWORK env = Some n
          /\ n <> [] /\ n <> lit "testnet" /\ n <> lit "mainnet"
          /\ e = new_Error (lit "Invalid network: " +++ n
                              +++ lit ". Must be 'testnet' or 'mainnet'")
    end.
Proof.
  intros parseInt10 env. unfold loadConfig, string_or.
  destruct (env_NETWORK env) as [[|c r]|]; cbn [Js.falsy str_value].
  - cbn. split; [left|]; reflexivity.
  - destruct (Js.eqb (c :: r) (lit "testnet")) eqn:Et; cbn [negb andb].
    + apply eqb_true_iff in Et. cbn [ec_NETWORK]. split; [left; exact Et|reflexivity].
    + destruct (Js.eqb (c :: r) (lit "mainnet")) eqn:Em; cbn [negb].
      * apply eqb_true_iff in Em. cbn [ec_NETWORK]. split; [right; exact Em|reflexivity].
      * exists (c :: r). split; [reflexivity|]. split; [discriminate|].
        split; [intros E; apply eqb_true_iff in E; congruence|].
        split; [intros E; apply eqb_true_iff in E; congruence|reflexivity].
  - cbn. split; [left|]; reflexivity.
Qed.

Example loadConfig_capitalised :
  loadConfig (fun _ => NaN)
    (mkProcessEnv (Some (lit "Testnet")) None None None None None)
  = Throw (new_Error (lit "Invalid network: Testnet. Must be 'testnet' or 'mainnet'")).
Proof. reflexivity. Qed.

(** ** The autonomous loop *)

Lemma three_in_a_row_cons (e : Thrown) (r : Round) (rounds : list Round) :
  three_in_a_row e rounds -> three_in_a_row e (r :: rounds).
Proof.
  intros (pre & r1 & r2 & r3 & post & -> & H1 & H2 & H3).
  exists (r :: pre), r1, r2, r3, post. repeat split; assumption.
Qed.

Lemma autonomous_rounds_cons (interval : JsNumber) (c : Z) (r : Round) (rest : list Round) :
  snd (autonomous_rounds interval c (r :: rest))
  = match round_error r with
    | None => snd (autonomous_rounds interval 0 rest)
    | Some error =>
        if (MAX_CONSECUTIVE_ERRORS <=? c + 1)%Z then Thrown_out error
        else snd (autonomous_rounds interval (c + 1) rest)
    end.
Proof.
  cbn [autonomous_rounds]. unfold autonomous_round.
  destruct (round_error r) as [error|].
  - destruct (MAX_CONSECUTIVE_ERRORS <=? c + 1)%Z; [reflexivity|].
    destruct (autonomous_rounds interval (c + 1) rest); reflexivity.
  - destruct (autonomous_rounds interval 0 rest); reflexivity.
Qed.

Lemma autonomous_abort_sound (interval : JsNumber) (rounds : list Round) :
  forall e,
    (snd (autonomous_rounds interval 0 rounds) = Thrown_out e ->
     three_in_a_row e rounds)
    /\ (snd (autonomous_rounds interval 1 rounds) = Thrown_out e ->
        (exists r1 r2 post, rounds = r1 :: r2 :: post
                            /\ fails r1 = true /\ round_error r2 = Some e)
        \/ three_in_a_row e rounds)
    /\ (snd (autonomous_rounds interval 2 rounds) = Thrown_out e ->
        (exists r1 post, rounds = r1 :: post /\ round_error r1 = Some e)
        \/ three_in_a_row e rounds).
Proof.
  induction rounds as [|r rest IH]; intros e.
  - cbn. repeat split; discriminate.
  - destruct (IH e) as (IH0 & IH1 & IH2).
    rewrite !autonomous_rounds_cons. unfold MAX_CONSECUTIVE_ERRORS.
    destruct (round_error r) as [e0|] eqn:Er; cbn [Z.add Z.leb Z.compare Pos.compare
                                                  Pos.compare_cont Pos.add Pos.succ].
    + assert (Hr : fails r = true) by (unfold fails; rewrite Er; reflexivity).
      split; [|split].
      * intros H. destruct (IH1 H) as [(r1 & r2 & post & -> & H1 & H2)|H3].
        -- exists [], r, r1, r2, post. repeat split; assumption.
        -- apply three_in_a_row_cons. exact H3.
      * intros H. destruct (IH2 H) as [(r1 & post & -> & H1)|H3].
        -- left. exists r, r1, post. repeat split; assumption.
        -- right. apply three_in_a_row_cons. exact H3.
      * intros H. inversion H; subst. left. exists r, rest. split; [reflexivity|exact Er].
    + split; [|split]; intros H.
      * apply three_in_a_row_cons. exact (IH0 H).
      * right. apply three_in_a_row_cons. exact (IH0 H).
      * right. apply three_in_a_row_cons. exact (IH0 H).
Qed.

Ltac zcalc :=
  unfold MAX_CONSECUTIVE_ERRORS;
  cbn [Z.add Z.leb Z.compare Pos.compare Pos.compare_cont Pos.add Pos.succ].


Lemma autonomous_abort_complete (interval : JsNumber) (r1 r2 r3 : Round)
    (post : list Round) :
  fails r1 = true -> fails r2 = true -> fails r3 = true ->
  forall (pre : list Round) (c : Z),
    (c = 0 \/ c = 1 \/ c = 2)%Z ->
    exists e, snd (autonomous_rounds interval c (pre ++ r1 :: r2 :: r3 :: post))
              = Thrown_out e.
Proof.
  unfold fails. intros H1 H2 H3.
  destruct (round_error r1) as [e1|] eqn:E1; [|discriminate].
  destruct (round_error r2) as [e2|] eqn:E2; [|discriminate].
  destruct (round_error r3) as [e3|] eqn:E3; [|discriminate].
  unfold MAX_CONSECUTIVE_ERRORS.
  induction pre as [|r pre IH]; intros c Hc.
  - cbn [app]. rewrite !autonomous_rounds_cons, E1, E2, E3.
    destruct Hc as [ -> | [ -> | -> ] ]; zcalc; eexists; reflexivity.
  - cbn [app]. rewrite autonomous_rounds_cons.
    destruct (round_error r) as [e0|].
    + destruct Hc as [ -> | [ -> | -> ] ]; zcalc.
      * apply IH. right. left. reflexivity.
      * apply IH. right. right. reflexivity.
      * eexists. reflexivity.
    + apply IH. left. reflexivity.
Qed.

Lemma runAutonomousMode_status (interval : option JsNumber) (rounds : list Round) :
  snd (runAutonomousMode interval rounds)
  = snd (autonomous_rounds (match interval with Some i => i | None => Num 10 end) 0 rounds).
Proof.
  unfold runAutonomousMode.
  destruct (autonomous_rounds _ 0 rounds). reflexivity.
Qed.

(** The autonomous loop gives up exactly when three rounds in a row fail.
    The error it throws is the error of the third of three such rounds,
    and a round that succeeds starts the count again. *)
Theorem runAutonomousMode_gives_up :
  forall (interval : option JsNumber) (rounds : list Round),
    (forall e, snd (runAutonomousMode interval rounds) = Thrown_out e ->
               three_in_a_row e rounds)
    /\ ((exists e, three_in_a_row e rounds) ->
        exists e, snd (runAutonomousMode interval rounds) = Thrown_out e).
Proof.
  intros interval rounds. rewrite runAutonomousMode_status. split.
  - intros e H. exact (proj1 (autonomous_abort_sound _ rounds e) H).
  - intros (e & pre & r1 & r2 & r3 & post & -> & H1 & H2 & H3).
    apply autonomous_abort_complete; try assumption.
    + unfold fails. rewrite H3. reflexivity.
    + left. reflexivity.
Qed.





Example autonomous_third_failure :
  snd (runAutonomousMode None
         [ mkRound [mkChunk (Some (lit "hello")) None] None;
           mkRound [] (Some (new_Error (lit "first")));
           mkRound [] (Some (new_Error (lit "second")));
           mkRound [] (Some (new_Error (lit "third")));
           mkRound [] None ])
  = Thrown_out (new_Error (lit "third")).
Proof. reflexivity. Qed.
